(** * save_data_gi: the telemetry bridge of the flow reactor

    A shallow embedding of [save_data_gi.py]: the receive loop that turns
    JSON chunks from the controller into rows of the three SQLite tables
    [experiments], [reagents] and [sensor_log], while tracking the current
    experiment number.

    Library calls the script relies on (bytes.decode, str.strip,
    json.loads, the text rendering SQLite applies to a REAL stored in a
    TEXT column and the number it reads in a text stored in a REAL or
    INTEGER column) are collected in the record [Runtime]; the program
    and every general theorem are stated for an arbitrary runtime.
    [ascii_runtime] is a reference instance for ASCII chunks on which the
    program can be run. *)

From Stdlib Require Import ZArith List String Ascii Bool Lia.
From Stdlib Require Import Floats Uint63 DecimalString.
Import ListNotations.
Open Scope string_scope.

Set Implicit Arguments.
Set Warnings "-register-all,-inexact-float".

(** ** Python values as produced by [json.loads] *)

(** A JSON object becomes a Python dict; the association list keeps one
    entry per key. *)
Inductive json : Type :=
| JNull
| JBool (b : bool)
| JInt (z : Z)
| JFloat (f : float)
| JStr (s : string)
| JArr (items : list json)
| JObj (members : list (string * json)).

Definition dict : Type := list (string * json).

Fixpoint dict_get (d : dict) (k : string) : option json :=
  match d with
  | [] => None
  | (k', v) :: d' => if String.eqb k' k then Some v else dict_get d' k
  end.

(** [d[k] = v] on a dict: an existing key keeps its position. *)
Fixpoint dict_set (d : dict) (k : string) (v : json) : dict :=
  match d with
  | [] => [(k, v)]
  | (k', v') :: d' =>
      if String.eqb k' k then (k', v) :: d' else (k', v') :: dict_set d' k v
  end.

(** Exceptions the loop body can meet; all of them derive from
    [Exception]. *)
Inductive exn : Type :=
| UnicodeDecodeError
| JSONDecodeError
| AttributeError
| KeyError (key : string)
| TypeError
| InterfaceError      (* sqlite3: parameter of an unsupported type *)
| OverflowError       (* sqlite3: int does not fit SQLite's INTEGER *)
| IntegrityError      (* sqlite3: UNIQUE constraint failed *)
| OperationalError.   (* sqlite3: the database cannot be reached *)

(** Truth value of an object, as tested by [if x:] and [if not x:]. *)
Definition truthy (v : json) : bool :=
  match v with
  | JNull => false
  | JBool b => b
  | JInt z => negb (Z.eqb z 0)
  | JFloat f => negb (PrimFloat.eqb f 0%float)
  | JStr s => negb (String.eqb s EmptyString)
  | JArr l => match l with [] => false | _ => true end
  | JObj d => match d with [] => false | _ => true end
  end.

(** [v == s] for a string literal [s]. *)
Definition py_eq_str (v : json) (s : string) : bool :=
  match v with
  | JStr t => String.eqb t s
  | _ => false
  end.

(** [v.get(k)]: only a dict has the method; the default is [None]. *)
Definition py_get (v : json) (k : string) : exn + json :=
  match v with
  | JObj d => inr (match dict_get d k with Some x => x | None => JNull end)
  | _ => inl AttributeError
  end.

(** [v.get(k, default)]. *)
Definition py_get_default (v : json) (k : string) (default : json) : exn + json :=
  match v with
  | JObj d => inr (match dict_get d k with Some x => x | None => default end)
  | _ => inl AttributeError
  end.

(** [v[k]] with a string key: a missing key of a dict is a KeyError, and
    no other value accepts a string subscript. *)
Definition py_subscript (v : json) (k : string) : exn + json :=
  match v with
  | JObj d => match dict_get d k with Some x => inr x | None => inl (KeyError k) end
  | _ => inl TypeError
  end.

Fixpoint chars (s : string) : list json :=
  match s with
  | EmptyString => []
  | String c s' => JStr (String c EmptyString) :: chars s'
  end.

(** The items a [for] loop draws from a value: a list gives its items, a
    dict its keys, a string its characters; anything else is not iterable. *)
Definition py_iter (v : json) : exn + list json :=
  match v with
  | JArr l => inr l
  | JObj d => inr (map (fun kv => JStr (fst kv)) d)
  | JStr s => inr (chars s)
  | _ => inl TypeError
  end.

(** ** SQLite values and parameter binding *)

Inductive sqlval : Type :=
| SNull
| SInt (z : Z)
| SReal (f : float)
| SText (s : string).

(** The sqlite3 module binds None, int, float and str (bool is an int);
    a list or dict is refused, and so is an int outside 64 bits.  SQLite
    turns a NaN into NULL. *)
Definition bind_error (v : json) : option exn :=
  match v with
  | JArr _ | JObj _ => Some InterfaceError
  | JInt z =>
      if ((- 2 ^ 63 <=? z) && (z <? 2 ^ 63))%Z then None else Some OverflowError
  | _ => None
  end.

Definition bind_value (v : json) : sqlval :=
  match v with
  | JNull => SNull
  | JBool b => SInt (if b then 1 else 0)
  | JInt z => SInt z
  | JFloat f => if PrimFloat.is_nan f then SNull else SReal f
  | JStr s => SText s
  | JArr _ | JObj _ => SNull
  end.

(** Parameters are bound left to right; the first refusal is raised. *)
Fixpoint first_bind_error (ps : list json) : option exn :=
  match ps with
  | [] => None
  | p :: ps' =>
      match bind_error p with
      | Some e => Some e
      | None => first_bind_error ps'
      end
  end.

(** A cell of a TEXT column: NULL or a text. *)
Definition text : Type := option string.

Definition text_eqb (a b : text) : bool :=
  match a, b with
  | Some x, Some y => String.eqb x y
  | _, _ => false   (* NULL equals nothing, not even NULL *)
  end.

(** ** The three tables

    Rows are kept in insertion order.  The [id] column is the store's own
    bookkeeping and is left out.  Cells of the TEXT columns hold what
    SQLite stores there (NULL or a text); cells of the REAL and INTEGER
    columns hold the bound value after the column's affinity was applied
    (see [stored] below). *)

Module Experiments.
Record row : Type := Row {
  exp_number : text;
  operator : text;
  description : text;
  start_time : text;
  end_time : text
}.
End Experiments.

Module Reagents.
Record row : Type := Row {
  exp_number : text;
  reagent : text;
  concentration : sqlval
}.
End Reagents.

Module SensorLog.
Record row : Type := Row {
  timestamp : text;
  exp_number : text;
  temperature : sqlval;
  uv1 : sqlval;
  photodiode : sqlval;
  turbidity1 : sqlval;
  turbidity2 : sqlval;
  rgb1_r : sqlval;
  rgb1_g : sqlval;
  rgb1_b : sqlval;
  rgb2_r : sqlval;
  rgb2_g : sqlval;
  rgb2_b : sqlval;
  uv_led_state : sqlval;
  uv_intensity : sqlval;
  pump1_state : sqlval;
  pump2_state : sqlval;
  pump_speed : sqlval;
  flow_rate : sqlval
}.
End SensorLog.

Record tables : Type := Tables {
  experiments : list Experiments.row;
  reagents : list Reagents.row;
  sensor_log : list SensorLog.row
}.

Definition empty_tables : tables := Tables [] [] [].

(** ** The library the script runs on *)

Record Runtime : Type := {
  (* data.decode(): None when the bytes are not UTF-8 *)
  bytes_decode : string -> option string;
  (* line.strip() *)
  str_strip : string -> string;
  (* json.loads(line): None when it raises *)
  json_loads : string -> option json;
  (* the text SQLite keeps when a REAL lands in a TEXT column *)
  real_text : float -> string;
  (* the number SQLite reads in a text that lands in a REAL or INTEGER
     column: an integer when the text is written as one and fits 64 bits,
     a float for any other number; None when the text is no number *)
  text_number : string -> option (Z + float)
}.

(** ** Column affinity of the REAL and INTEGER columns

    A value bound to a REAL or INTEGER column is not always stored as it
    was bound.  A float that is a whole number strictly between the
    bounds of a 64-bit integer becomes that integer; a text that reads as
    a number becomes that number; and a REAL column then keeps every
    integer as the nearest float. *)

Inductive affinity : Type :=
| REAL
| INTEGER.

(** The whole number a float is, if it is one. *)
Definition whole_of_float (f : float) : option Z :=
  match Prim2SF f with
  | S754_zero _ => Some 0%Z
  | S754_finite sign m e =>
      let magnitude :=
        if (0 <=? e)%Z then Some (Z.pos m * 2 ^ e)%Z
        else if (Z.pos m mod 2 ^ (- e) =? 0)%Z then Some (Z.pos m / 2 ^ (- e))%Z
        else None in
      match magnitude with
      | Some z => Some (if sign then (- z)%Z else z)
      | None => None
      end
  | S754_infinity _ => None
  | S754_nan => None
  end.

(** A float is kept as an integer when it is whole and strictly inside
    the 64-bit range. *)
Definition integer_if_whole (f : float) : sqlval :=
  match whole_of_float f with
  | Some z =>
      if ((- 2 ^ 63 <? z) && (z <? 2 ^ 63 - 1))%Z then SInt z else SReal f
  | None => SReal f
  end.

(** The float nearest to a 64-bit integer. *)
Definition float_of_int64 (z : Z) : float :=
  let magnitude (m : Z) : float :=
    if (m <? 2 ^ 63)%Z then PrimFloat.of_uint63 (Uint63.of_Z m)
    else PrimFloat.mul (PrimFloat.of_uint63 (Uint63.of_Z (2 ^ 62))) 2%float in
  if (0 <=? z)%Z then magnitude z else PrimFloat.opp (magnitude (- z)%Z).

Definition numeric_affinity (rt : Runtime) (v : sqlval) : sqlval :=
  match v with
  | SReal f => integer_if_whole f
  | SText s =>
      match text_number rt s with
      | Some (inl z) => SInt z
      | Some (inr f) => integer_if_whole f
      | None => v
      end
  | _ => v
  end.

(** What a column of the given affinity keeps of a bound value. *)
Definition stored (rt : Runtime) (a : affinity) (v : sqlval) : sqlval :=
  match a with
  | INTEGER => numeric_affinity rt v
  | REAL =>
      match numeric_affinity rt v with
      | SInt z => SReal (float_of_int64 z)
      | w => w
      end
  end.

(** ** A reference runtime for ASCII chunks

    [ascii_runtime] agrees with CPython and SQLite on ASCII input written
    in the JSON subset below: objects, arrays, strings with the
    one-character escapes, the three literals, integers, and decimals
    without exponent of at most 15 digits.  Anything else is reported as
    undecodable.  It only serves to run the program on concrete chunks. *)

Definition is_json_ws (c : ascii) : bool :=
  (c =? " ")%char || (c =? "009")%char || (c =? "010")%char || (c =? "013")%char.

Fixpoint skip_ws (s : string) : string :=
  match s with
  | String c r => if is_json_ws c then skip_ws r else s
  | EmptyString => s
  end.

Definition unescape (c : ascii) : option ascii :=
  if (c =? "034")%char then Some "034"%char
  else if (c =? "\")%char then Some "\"%char
  else if (c =? "/")%char then Some "/"%char
  else if (c =? "b")%char then Some "008"%char
  else if (c =? "f")%char then Some "012"%char
  else if (c =? "n")%char then Some "010"%char
  else if (c =? "r")%char then Some "013"%char
  else if (c =? "t")%char then Some "009"%char
  else None.

Definition cons_fst (c : ascii) (p : option (string * string)) : option (string * string) :=
  match p with
  | Some (t, rest) => Some (String c t, rest)
  | None => None
  end.

(** The characters of a string literal, after its opening quote. *)
Fixpoint scan_string (s : string) : option (string * string) :=
  match s with
  | EmptyString => None
  | String c r =>
      if (c =? "034")%char then Some (EmptyString, r)
      else if (c =? "\")%char then
        match r with
        | String e r' =>
            match unescape e with
            | Some x => cons_fst x (scan_string r')
            | None => None
            end
        | EmptyString => None
        end
      else if (nat_of_ascii c <? 32)%nat then None
      else cons_fst c (scan_string r)
  end.

Definition digit_of (c : ascii) : option Z :=
  let n := nat_of_ascii c in
  if ((48 <=? n) && (n <=? 57))%nat then Some (Z.of_nat (n - 48)) else None.

(** The leading digits of [s]: their value, their number, and the rest. *)
Fixpoint scan_digits (s : string) (acc : Z) (count : nat) : Z * nat * string :=
  match s with
  | String c r =>
      match digit_of c with
      | Some d => scan_digits r (10 * acc + d)%Z (S count)
      | None => (acc, count, s)
      end
  | EmptyString => (acc, count, s)
  end.

Definition float_of_Z (z : Z) : float := PrimFloat.of_uint63 (Uint63.of_Z z).

Definition is_exponent_mark (s : string) : bool :=
  match s with
  | String c _ => (c =? "e")%char || (c =? "E")%char
  | EmptyString => false
  end.

(** A number after its optional sign: [0] or digits without leading zero,
    then an optional fraction. *)
Definition scan_number (negative : bool) (s : string) : option (json * string) :=
  let '(whole, n, r) :=
    match s with
    | String "0" r0 => (0%Z, 1%nat, r0)
    | _ => scan_digits s 0%Z 0%nat
    end in
  match n with
  | O => None
  | S _ =>
      match r with
      | String "." r1 =>
          let '(m, k, r2) := scan_digits r1 whole 0%nat in
          match k with
          | O => None
          | S _ =>
              if is_exponent_mark r2 then None
              else if (n + k <=? 15)%nat then
                let f := PrimFloat.div (float_of_Z m) (float_of_Z (10 ^ Z.of_nat k)) in
                Some (JFloat (if negative then PrimFloat.opp f else f), r2)
              else None
          end
      | _ =>
          if is_exponent_mark r then None
          else Some (JInt (if negative then (- whole)%Z else whole), r)
      end
  end.

Fixpoint strip_prefix (p s : string) : option string :=
  match p, s with
  | EmptyString, _ => Some s
  | String a p', String b s' => if (a =? b)%char then strip_prefix p' s' else None
  | String _ _, EmptyString => None
  end.

Definition scan_scalar (s : string) : option (json * string) :=
  match s with
  | String "034" r =>
      match scan_string r with
      | Some (t, rest) => Some (JStr t, rest)
      | None => None
      end
  | String "-" r => scan_number true r
  | String "t" _ => option_map (pair (JBool true)) (strip_prefix "true" s)
  | String "f" _ => option_map (pair (JBool false)) (strip_prefix "false" s)
  | String "n" _ => option_map (pair JNull) (strip_prefix "null" s)
  | _ => scan_number false s
  end.

Fixpoint parse_value (fuel : nat) (s : string) : option (json * string) :=
  match fuel with
  | O => None
  | S fuel' =>
      match skip_ws s with
      | String "[" r =>
          match skip_ws r with
          | String "]" r' => Some (JArr [], r')
          | r1 => parse_items fuel' r1 []
          end
      | String "{" r =>
          match skip_ws r with
          | String "}" r' => Some (JObj [], r')
          | r1 => parse_members fuel' r1 []
          end
      | s1 => scan_scalar s1
      end
  end
with parse_items (fuel : nat) (s : string) (acc : list json) : option (json * string) :=
  match fuel with
  | O => None
  | S fuel' =>
      match parse_value fuel' s with
      | Some (v, r) =>
          match skip_ws r with
          | String "," r' => parse_items fuel' r' (v :: acc)
          | String "]" r' => Some (JArr (rev (v :: acc)), r')
          | _ => None
          end
      | None => None
      end
  end
with parse_members (fuel : nat) (s : string) (acc : dict) : option (json * string) :=
  match fuel with
  | O => None
  | S fuel' =>
      match skip_ws s with
      | String "034" r =>
          match scan_string r with
          | Some (k, r1) =>
              match skip_ws r1 with
              | String ":" r2 =>
                  match parse_value fuel' r2 with
                  | Some (v, r3) =>
                      match skip_ws r3 with
                      | String "," r4 => parse_members fuel' r4 (dict_set acc k v)
                      | String "}" r4 => Some (JObj (dict_set acc k v), r4)
                      | _ => None
                      end
                  | None => None
                  end
              | _ => None
              end
          | None => None
          end
      | _ => None
      end
  end.

Definition ascii_json_loads (s : string) : option json :=
  match parse_value (2 * String.length s + 2) s with
  | Some (v, rest) =>
      match skip_ws rest with
      | EmptyString => Some v
      | _ => None
      end
  | None => None
  end.

Definition ascii_bytes_decode (data : string) : option string :=
  if forallb (fun c => (nat_of_ascii c <? 128)%nat) (list_ascii_of_string data)
  then Some data else None.

(** The ASCII characters [str.strip] removes. *)
Definition is_py_space (c : ascii) : bool :=
  let n := nat_of_ascii c in
  ((9 <=? n) && (n <=? 13) || (28 <=? n) && (n <=? 32))%nat.

Fixpoint lstrip (l : list ascii) : list ascii :=
  match l with
  | c :: l' => if is_py_space c then lstrip l' else l
  | [] => []
  end.

Definition ascii_str_strip (s : string) : string :=
  string_of_list_ascii (rev (lstrip (rev (lstrip (list_ascii_of_string s))))).

(** Exact on whole numbers below 10^15; the reference runs never use a
    float as an experiment number. *)
Definition ascii_real_text (f : float) : string :=
  match Prim2SF f with
  | S754_zero _ => "0.0"
  | S754_finite sign m e =>
      let z := (if (0 <=? e)%Z then Z.pos m * 2 ^ e else Z.pos m / 2 ^ (- e))%Z in
      ((if sign then "-" else EmptyString)
         ++ NilZero.string_of_uint (N.to_uint (Z.to_N z)) ++ ".0")
  | S754_infinity sign => if sign then "-Inf" else "Inf"
  | S754_nan => "NaN"
  end.

(** The blanks SQLite skips around a number. *)
Definition is_sqlite_space (c : ascii) : bool :=
  let n := nat_of_ascii c in
  ((9 <=? n) && (n <=? 13) || (n =? 32))%nat.

Fixpoint skip_sqlite_space (l : list ascii) : list ascii :=
  match l with
  | c :: l' => if is_sqlite_space c then skip_sqlite_space l' else l
  | [] => []
  end.

(** Integers within 64 bits and decimals written as the JSON reader
    takes them, with blanks around them.  SQLite reads more texts as
    numbers (a leading [+] or zeros, exponents, longer numbers); the
    reference runs use none of them. *)
Definition ascii_text_number (s : string) : option (Z + float) :=
  let t := string_of_list_ascii
             (rev (skip_sqlite_space (rev (skip_sqlite_space (list_ascii_of_string s))))) in
  let scanned :=
    match t with
    | String "-" r => scan_number true r
    | _ => scan_number false t
    end in
  match scanned with
  | Some (JInt z, EmptyString) =>
      if ((- 2 ^ 63 <=? z) && (z <? 2 ^ 63))%Z then Some (inl z) else None
  | Some (JFloat f, EmptyString) => Some (inr f)
  | _ => None
  end.

Definition ascii_runtime : Runtime := {|
  bytes_decode := ascii_bytes_decode;
  str_strip := ascii_str_strip;
  json_loads := ascii_json_loads;
  real_text := ascii_real_text;
  text_number := ascii_text_number
|}.

(** Chunks are written with ['] where JSON has its double quote. *)
Definition dq (s : string) : string :=
  string_of_list_ascii
    (map (fun c => if (c =? "'")%char then "034"%char else c) (list_ascii_of_string s)).

(** ** The session state and the monad of the loop body *)

(** What the script prints, one constructor per [print] statement. *)
Inductive line : Type :=
| RawMessage (received : string)
| Started (exp_number : json)
| ExperimentMetadata (r : Experiments.row)
| ReagentsOf (rs : list Reagents.row)
| NoExperimentMetadata (exp_number : json)
| Stopped (exp_number : json)
| NoActiveExperiment
| LoggedSensorData
| Error (e : exn).

Record state : Type := State {
  db : tables;                  (* the tables as the connection sees them *)
  disk : tables;                (* the tables as of the last commit *)
  current_exp_number : json;    (* None when no experiment is tracked *)
  stdout : list line
}.

(** What the script starts from: the database file as found, nothing
    pending, no current experiment. *)
Definition initial_state (found : tables) : state := State found found JNull [].

(** The surroundings of one received chunk, read once per chunk: the
    clock the store reads for [datetime('now')] and [CURRENT_TIMESTAMP],
    and whether the database can be reached. *)
Record environment : Type := Environment {
  now : string;
  store_up : bool
}.

(** How a piece of the loop body ends: normally, by an exception, or by
    [continue]. *)
Inductive completion (A : Type) : Type :=
| Normal (a : A)
| Raised (e : exn)
| Continued.
Arguments Raised {A} e.
Arguments Continued {A}.

Definition M (A : Type) : Type := state -> state * completion A.

Definition ret {A} (a : A) : M A := fun s => (s, Normal a).

Definition bind {A B} (m : M A) (k : A -> M B) : M B :=
  fun s =>
    match m s with
    | (s', Normal a) => k a s'
    | (s', Raised e) => (s', Raised e)
    | (s', Continued) => (s', Continued)
    end.

Declare Scope body_scope.
Delimit Scope body_scope with body.
Notation "x <- m ;; k" := (bind m (fun x => k))
  (at level 61, m at next level, right associativity) : body_scope.
Notation "m ;; k" := (bind m (fun _ => k))
  (at level 61, right associativity) : body_scope.
Open Scope body_scope.

Definition raise {A} (e : exn) : M A := fun s => (s, Raised e).

Definition continue {A} : M A := fun s => (s, Continued).

Definition lift {A} (r : exn + A) : M A :=
  match r with
  | inl e => raise e
  | inr a => ret a
  end.

Definition print (l : line) : M unit :=
  fun s => (State (db s) (disk s) (current_exp_number s) (stdout s ++ [l]), Normal tt).

Definition get_current : M json := fun s => (s, Normal (current_exp_number s)).

Definition set_current (v : json) : M unit :=
  fun s => (State (db s) (disk s) v (stdout s), Normal tt).

Definition get_db : M tables := fun s => (s, Normal (db s)).

Definition set_db (t : tables) : M unit :=
  fun s => (State t (disk s) (current_exp_number s) (stdout s), Normal tt).

(** ** The store *)

Definition startswith (s prefix : string) : bool := String.prefix prefix s.

Section Program.

Context (rt : Runtime).

(** What a TEXT column keeps of a bound value. *)
Definition text_affinity (v : sqlval) : text :=
  match v with
  | SNull => None
  | SInt z => Some (NilZero.string_of_int (Z.to_int z))
  | SReal f => Some (real_text rt f)
  | SText s => Some s
  end.

Definition as_text (v : json) : text := text_affinity (bind_value v).

(** [cursor.execute] binds its parameters, then runs the statement. *)
Definition execute_guard (env : environment) (params : list json) : M unit :=
  match first_bind_error params with
  | Some e => raise e
  | None => if store_up env then ret tt else raise OperationalError
  end.

(** [conn.commit()]: what the connection holds becomes durable. *)
Definition commit (env : environment) : M unit :=
  fun s =>
    if store_up env
    then (State (db s) (db s) (current_exp_number s) (stdout s), Normal tt)
    else (s, Raised OperationalError).

Definition has_exp_number (key : text) (r : Experiments.row) : bool :=
  text_eqb (Experiments.exp_number r) key.

(** INSERT INTO experiments (exp_number, operator, description, start_time)
    VALUES (?, ?, ?, datetime('now')); [exp_number] is UNIQUE. *)
Definition insert_experiment (env : environment) (exp_number operator description : json)
  : M unit :=
  execute_guard env [exp_number; operator; description] ;;
  t <- get_db ;;
  if existsb (has_exp_number (as_text exp_number)) (experiments t)
  then raise IntegrityError
  else
    set_db (Tables
              (experiments t ++
                 [Experiments.Row (as_text exp_number) (as_text operator)
                    (as_text description) (Some (now env)) None])
              (reagents t) (sensor_log t)).

(** INSERT INTO reagents (exp_number, reagent, concentration) VALUES (?, ?, ?);
    [concentration] is a REAL column. *)
Definition insert_reagent (env : environment) (exp_number name concentration : json)
  : M unit :=
  execute_guard env [exp_number; name; concentration] ;;
  t <- get_db ;;
  set_db (Tables (experiments t)
            (reagents t ++
               [Reagents.Row (as_text exp_number) (as_text name)
                  (stored rt REAL (bind_value concentration))])
            (sensor_log t)).

Definition stamp_end (env : environment) (key : text) (r : Experiments.row)
  : Experiments.row :=
  if has_exp_number key r
  then Experiments.Row (Experiments.exp_number r) (Experiments.operator r)
         (Experiments.description r) (Experiments.start_time r) (Some (now env))
  else r.

(** UPDATE experiments SET end_time = datetime('now') WHERE exp_number = ? *)
Definition update_end_time (env : environment) (exp_number : json) : M unit :=
  execute_guard env [exp_number] ;;
  t <- get_db ;;
  set_db (Tables (map (stamp_end env (as_text exp_number)) (experiments t))
            (reagents t) (sensor_log t)).

Definition reagent_of (key : text) (r : Reagents.row) : bool :=
  text_eqb (Reagents.exp_number r) key.

Definition print_experiment_metadata (env : environment) (exp_number : json) : M unit :=
  execute_guard env [exp_number] ;;
  t <- get_db ;;
  match find (has_exp_number (as_text exp_number)) (experiments t) with
  | Some exp_row =>
      print (ExperimentMetadata exp_row) ;;
      execute_guard env [exp_number] ;;
      print (ReagentsOf (filter (reagent_of (as_text exp_number)) (reagents t)))
  | None => print (NoExperimentMetadata exp_number)
  end.

(** INSERT INTO sensor_log (exp_number, temperature, ..., flow_rate)
    VALUES (?, ..., ?); [timestamp] takes its default CURRENT_TIMESTAMP.
    The columns are REAL but for the six colour channels, the two UV-LED
    columns and the two pump states, which are INTEGER. *)
Definition insert_sensor_log (env : environment) (exp_number : json)
  (temp uv1 photodiode turbidity turbidity2 rgb1_r rgb1_g rgb1_b rgb2_r rgb2_g rgb2_b
     uvLed uvIntensity pump pump2 pumpSpeed flowRate : json) : M unit :=
  execute_guard env
    [exp_number; temp; uv1; photodiode; turbidity; turbidity2;
     rgb1_r; rgb1_g; rgb1_b; rgb2_r; rgb2_g; rgb2_b;
     uvLed; uvIntensity; pump; pump2; pumpSpeed; flowRate] ;;
  t <- get_db ;;
  set_db (Tables (experiments t) (reagents t)
            (sensor_log t ++
               [SensorLog.Row (Some (now env)) (as_text exp_number)
                  (stored rt REAL (bind_value temp))
                  (stored rt REAL (bind_value uv1))
                  (stored rt REAL (bind_value photodiode))
                  (stored rt REAL (bind_value turbidity))
                  (stored rt REAL (bind_value turbidity2))
                  (stored rt INTEGER (bind_value rgb1_r))
                  (stored rt INTEGER (bind_value rgb1_g))
                  (stored rt INTEGER (bind_value rgb1_b))
                  (stored rt INTEGER (bind_value rgb2_r))
                  (stored rt INTEGER (bind_value rgb2_g))
                  (stored rt INTEGER (bind_value rgb2_b))
                  (stored rt INTEGER (bind_value uvLed))
                  (stored rt INTEGER (bind_value uvIntensity))
                  (stored rt INTEGER (bind_value pump))
                  (stored rt INTEGER (bind_value pump2))
                  (stored rt REAL (bind_value pumpSpeed))
                  (stored rt REAL (bind_value flowRate))])).

(** ** The loop body *)

(** [for r in ...: cursor.execute(INSERT INTO reagents ...)] *)
Fixpoint insert_reagents (env : environment) (rs : list json) : M unit :=
  match rs with
  | [] => ret tt
  | r :: rs' =>
      exp_number <- get_current ;;
      name <- lift (py_subscript r "name") ;;
      concentration <- lift (py_get_default r "concentration" JNull) ;;
      insert_reagent env exp_number name concentration ;;
      insert_reagents env rs'
  end.

(** The branch [if parsed.get("type") == "setup":]. *)
Definition handle_setup (env : environment) (parsed : json) : M unit :=
  exp <- lift (py_subscript parsed "experiment") ;;
  expNo <- lift (py_subscript exp "expNo") ;;
  set_current expNo ;;
  exp_number <- get_current ;;
  operator <- lift (py_subscript exp "operator") ;;
  description <- lift (py_subscript exp "description") ;;
  insert_experiment env exp_number operator description ;;
  commit env ;;
  listed <- lift (py_get_default exp "reagents" (JArr [])) ;;
  rs <- lift (py_iter listed) ;;
  insert_reagents env rs ;;
  commit env ;;
  exp_number <- get_current ;;
  print (Started exp_number) ;;
  print_experiment_metadata env exp_number ;;
  continue.

(** The branch [if parsed.get("type") == "stop":]. *)
Definition handle_stop (env : environment) : M unit :=
  exp_number <- get_current ;;
  if truthy exp_number then
    update_end_time env exp_number ;;
    commit env ;;
    print (Stopped exp_number) ;;
    print_experiment_metadata env exp_number ;;
    set_current JNull ;;
    continue
  else continue.

(** The rest of the body: sensor data. *)
Definition handle_sensor_data (env : environment) (parsed : json) : M unit :=
  exp_number <- get_current ;;
  if negb (truthy exp_number) then
    print NoActiveExperiment ;;
    continue
  else
    temp <- lift (py_get parsed "temp") ;;
    uv1 <- lift (py_get parsed "uv1") ;;
    photodiode <- lift (py_get parsed "photodiode") ;;
    turbidity <- lift (py_get parsed "turbidity") ;;
    turbidity2 <- lift (py_get parsed "turbidity2") ;;
    rgb1_r <- lift (py_get parsed "rgb1_r") ;;
    rgb1_g <- lift (py_get parsed "rgb1_g") ;;
    rgb1_b <- lift (py_get parsed "rgb1_b") ;;
    rgb2_r <- lift (py_get parsed "rgb2_r") ;;
    rgb2_g <- lift (py_get parsed "rgb2_g") ;;
    rgb2_b <- lift (py_get parsed "rgb2_b") ;;
    uvLed <- lift (py_get parsed "uvLed") ;;
    uvIntensity <- lift (py_get parsed "uvIntensity") ;;
    pump <- lift (py_get parsed "pump") ;;
    pump2 <- lift (py_get parsed "pump2") ;;
    pumpSpeed <- lift (py_get parsed "pumpSpeed") ;;
    flowRate <- lift (py_get parsed "flowRate") ;;
    insert_sensor_log env exp_number temp uv1 photodiode turbidity turbidity2
      rgb1_r rgb1_g rgb1_b rgb2_r rgb2_g rgb2_b
      uvLed uvIntensity pump pump2 pumpSpeed flowRate ;;
    commit env ;;
    print LoggedSensorData.

(** The body of [try:]. *)
Definition try_body (env : environment) (data : string) : M unit :=
  line <- match bytes_decode rt data with
          | Some decoded => ret (str_strip rt decoded)
          | None => raise UnicodeDecodeError
          end ;;
  print (RawMessage line) ;;
  if negb (startswith line "{") then continue
  else
    parsed <- match json_loads rt line with
              | Some v => ret v
              | None => raise JSONDecodeError
              end ;;
    type <- lift (py_get parsed "type") ;;
    if py_eq_str type "setup" then handle_setup env parsed
    else
      type <- lift (py_get parsed "type") ;;
      if py_eq_str type "stop" then handle_stop env
      else handle_sensor_data env parsed.

(** One turn of [while True:]. *)
Inductive outcome : Type :=
| Break                   (* the loop is left *)
| Next (st : state).      (* the loop goes on to the next [recv] *)

Definition step (env : environment) (st : state) (data : string) : outcome :=
  match data with
  | EmptyString => Break
  | _ =>
      match try_body env data st with
      | (st', Raised e) =>
          Next (State (db st') (disk st') (current_exp_number st') (stdout st' ++ [Error e]))
      | (st', _) => Next st'
      end
  end.

(** The loop over the chunks the socket delivers, each with its
    surroundings, up to the first empty read. *)
Fixpoint session (st : state) (received : list (environment * string)) : state :=
  match received with
  | [] => st
  | (env, data) :: rest =>
      match step env st data with
      | Break => st
      | Next st' => session st' rest
      end
  end.

(** Whether the loop is left within the chunks received. *)
Fixpoint terminates (st : state) (received : list (environment * string)) : bool :=
  match received with
  | [] => false
  | (env, data) :: rest =>
      match step env st data with
      | Break => true
      | Next st' => terminates st' rest
      end
  end.

End Program.

(** ** Views of a chunk and of a message

    The tests the loop body makes on a chunk, gathered as functions so that
    statements can name the case they are about. *)

Section Views.

Context (rt : Runtime).

Inductive chunk_kind : Type :=
| EndOfStream                                 (* [not data] *)
| Undecodable                                 (* [data.decode()] raises *)
| Noise (line : string)                       (* no leading brace *)
| Malformed (line : string)                   (* [json.loads] raises *)
| Message (line : string) (parsed : json).

Definition classify (data : string) : chunk_kind :=
  match data with
  | EmptyString => EndOfStream
  | _ =>
      match bytes_decode rt data with
      | None => Undecodable
      | Some decoded =>
          let line := str_strip rt decoded in
          if startswith line "{" then
            match json_loads rt line with
            | Some parsed => Message line parsed
            | None => Malformed line
            end
          else Noise line
      end
  end.

Inductive event : Type :=
| Setup
| Stop
| SensorSample
| NotADict.        (* [parsed.get] does not exist *)

Definition event_of (parsed : json) : event :=
  match py_get parsed "type" with
  | inl _ => NotADict
  | inr type =>
      if py_eq_str type "setup" then Setup
      else if py_eq_str type "stop" then Stop
      else SensorSample
  end.

(** The part of the body that follows [json.loads]. *)
Definition dispatch (env : environment) (parsed : json) : M unit :=
  match event_of parsed with
  | Setup => handle_setup rt env parsed
  | Stop => handle_stop rt env
  | SensorSample => handle_sensor_data rt env parsed
  | NotADict => raise AttributeError
  end.

(** What the [except] clause adds to the state the body stopped in. *)
Definition after_try (r : state * completion unit) : state :=
  match r with
  | (st, Raised e) =>
      State (db st) (disk st) (current_exp_number st) (stdout st ++ [Error e])
  | (st, _) => st
  end.

End Views.

Definition printed (l : line) (st : state) : state :=
  State (db st) (disk st) (current_exp_number st) (stdout st ++ [l]).

(** [parsed.get(k)] once [parsed] is known to be a dict. *)
Definition field (parsed : json) (k : string) : json :=
  match py_get parsed k with
  | inr v => v
  | inl _ => JNull
  end.

(** The key of the message that feeds each channel column of
    [sensor_log], in the order of the INSERT. *)
Definition channels : list (string * (SensorLog.row -> sqlval)) :=
  [("temp", SensorLog.temperature); ("uv1", SensorLog.uv1);
   ("photodiode", SensorLog.photodiode);
   ("turbidity", SensorLog.turbidity1); ("turbidity2", SensorLog.turbidity2);
   ("rgb1_r", SensorLog.rgb1_r); ("rgb1_g", SensorLog.rgb1_g); ("rgb1_b", SensorLog.rgb1_b);
   ("rgb2_r", SensorLog.rgb2_r); ("rgb2_g", SensorLog.rgb2_g); ("rgb2_b", SensorLog.rgb2_b);
   ("uvLed", SensorLog.uv_led_state); ("uvIntensity", SensorLog.uv_intensity);
   ("pump", SensorLog.pump1_state); ("pump2", SensorLog.pump2_state);
   ("pumpSpeed", SensorLog.pump_speed); ("flowRate", SensorLog.flow_rate)].


(** The parameters of the INSERT into [sensor_log]. *)
Definition sensor_params (exp_number parsed : json) : list json :=
  exp_number :: map (fun c => field parsed (fst c)) channels.

(** The row the INSERT into [sensor_log] builds. *)
Definition sensor_row (rt : Runtime) (env : environment) (exp_number parsed : json)
  : SensorLog.row :=
  let real k := stored rt REAL (bind_value (field parsed k)) in
  let integer k := stored rt INTEGER (bind_value (field parsed k)) in
  SensorLog.Row (Some (now env)) (as_text rt exp_number)
    (real "temp") (real "uv1") (real "photodiode")
    (real "turbidity") (real "turbidity2")
    (integer "rgb1_r") (integer "rgb1_g") (integer "rgb1_b")
    (integer "rgb2_r") (integer "rgb2_g") (integer "rgb2_b")
    (integer "uvLed") (integer "uvIntensity")
    (integer "pump") (integer "pump2")
    (real "pumpSpeed") (real "flowRate").

(** A relation between the state before and after a piece of the body
    holds of the piece when it holds however the piece ends. *)
Definition preserves {A} (R : state -> state -> Prop) (m : M A) : Prop :=
  forall s s' c, m s = (s', c) -> R s s'.

(** How many rows of [experiments] carry a given experiment number. *)
Definition count_exp (key : text) (rows : list Experiments.row) : nat :=
  List.length (filter (has_exp_number key) rows).

(** Relations between the state before and after a turn of the loop. *)

Definition same_sensor_log (s s' : state) : Prop :=
  sensor_log (db s') = sensor_log (db s).

Definition same_store (s s' : state) : Prop :=
  db s' = db s /\ disk s' = disk s.

Definition count_kept (key : text) (s s' : state) : Prop :=
  1 <= count_exp key (experiments (db s)) ->
  count_exp key (experiments (db s')) = count_exp key (experiments (db s)).

(** Whether a chunk is a Setup message. *)
Definition is_setup_chunk (rt : Runtime) (data : string) : bool :=
  match classify rt data with
  | Message _ parsed =>
      match event_of parsed with
      | Setup => true
      | _ => false
      end
  | _ => false
  end.

Definition row_counts (t : tables) : nat * nat * nat :=
  (List.length (experiments t), List.length (reagents t), List.length (sensor_log t)).

(** ** Chunks and surroundings used in the worked runs *)

Definition up (t : string) : environment := Environment t true.
Definition down (t : string) : environment := Environment t false.

Definition fresh_state : state := initial_state empty_tables.

Definition setup_RX1 : string :=
  dq "{'type':'setup','experiment':{'expNo':'RX-1','operator':'A','description':'first run','reagents':[{'name':'H2O2','concentration':0.5}]}}".

Definition setup_RX2 : string :=
  dq "{'type':'setup','experiment':{'expNo':'RX-2','operator':'B','description':'second run'}}".


(** The same number as [setup_without_operator], with every field. *)
Definition setup_RX3 : string :=
  dq "{'type':'setup','experiment':{'expNo':'RX-3','operator':'C','description':'third run'}}".


Definition setup_without_operator : string :=
  dq "{'type':'setup','experiment':{'expNo':'RX-3','description':'no operator'}}".

(** A Setup whose second reagent has no name. *)
Definition setup_nameless_reagent : string :=
  dq "{'type':'setup','experiment':{'expNo':'RX-4','operator':'A','description':'d','reagents':[{'name':'NaOH'},{'concentration':1.5}]}}".

(** A Setup whose second reagent of three has no name. *)
Definition setup_three_reagents : string :=
  dq "{'type':'setup','experiment':{'expNo':'RX-5','operator':'A','description':'d','reagents':[{'name':'HCl','concentration':1},{'concentration':2},{'name':'KOH'}]}}".

Definition sample_temp : string := dq "{'temp': 25.3}".

Definition sample_pump : string := dq "{'pump': true, 'flowRate': 2}".

Definition stop_message : string := dq "{'type':'stop'}".

Definition not_json : string := "{not json".

(** ** The Setup and Stop branches as functions of the state

    The same computations as [handle_setup] and [handle_stop], written
    without the monad; [handle_setup_result] and [handle_stop_result]
    prove them equal to the branches. *)

Definition experiment_row (rt : Runtime) (env : environment)
  (exp_number operator description : json) : Experiments.row :=
  Experiments.Row (as_text rt exp_number) (as_text rt operator)
    (as_text rt description) (Some (now env)) None.

Definition reagent_row (rt : Runtime) (exp_number r : json) : Reagents.row :=
  Reagents.Row (as_text rt exp_number) (as_text rt (field r "name"))
    (stored rt REAL (bind_value (field r "concentration"))).

(** The exception one turn of the reagent loop raises, if any, with the
    store up. *)
Definition reagent_error (exp_number r : json) : option exn :=
  match py_subscript r "name" with
  | inl e => Some e
  | inr name =>
      match py_get_default r "concentration" JNull with
      | inl e => Some e
      | inr concentration => first_bind_error [exp_number; name; concentration]
      end
  end.

(** The reagents inserted before the loop stops. *)
Fixpoint stored_reagents (exp_number : json) (rs : list json) : list json :=
  match rs with
  | [] => []
  | r :: rs' =>
      match reagent_error exp_number r with
      | Some _ => []
      | None => r :: stored_reagents exp_number rs'
      end
  end.

Fixpoint reagents_error (exp_number : json) (rs : list json) : option exn :=
  match rs with
  | [] => None
  | r :: rs' =>
      match reagent_error exp_number r with
      | Some e => Some e
      | None => reagents_error exp_number rs'
      end
  end.

(** What [print_experiment_metadata] prints with the store up. *)
Definition metadata_lines (rt : Runtime) (t : tables) (exp_number : json) : list line :=
  match find (has_exp_number (as_text rt exp_number)) (experiments t) with
  | Some exp_row =>
      [ExperimentMetadata exp_row;
       ReagentsOf (filter (reagent_of (as_text rt exp_number)) (reagents t))]
  | None => [NoExperimentMetadata exp_number]
  end.

(** [exp.get("reagents", [])] once [exp] is known to be a dict. *)
Definition reagents_listed (exp : json) : json :=
  match py_get_default exp "reagents" (JArr []) with
  | inr v => v
  | inl _ => JArr []
  end.

(** The state a Stop leaves behind when the tracker is active, the
    experiment number can be bound and the store is up. *)
Definition stopped_state (rt : Runtime) (env : environment) (st : state) : state :=
  let exp_number := current_exp_number st in
  let t := Tables (map (stamp_end env (as_text rt exp_number)) (experiments (db st)))
             (reagents (db st)) (sensor_log (db st)) in
  State t t JNull (stdout st ++ Stopped exp_number :: metadata_lines rt t exp_number).

Definition stop_result (rt : Runtime) (env : environment) (st : state)
  : state * completion unit :=
  if truthy (current_exp_number st) then
    match bind_error (current_exp_number st) with
    | Some e => (st, Raised e)
    | None =>
        if store_up env then (stopped_state rt env st, Continued)
        else (st, Raised OperationalError)
    end
  else (st, Continued).

Definition setup_result (rt : Runtime) (env : environment) (parsed : json) (st : state)
  : state * completion unit :=
  match py_subscript parsed "experiment" with
  | inl e => (st, Raised e)
  | inr exp =>
  match py_subscript exp "expNo" with
  | inl e => (st, Raised e)
  | inr expNo =>
  let st1 := State (db st) (disk st) expNo (stdout st) in
  match py_subscript exp "operator" with
  | inl e => (st1, Raised e)
  | inr operator =>
  match py_subscript exp "description" with
  | inl e => (st1, Raised e)
  | inr description =>
  match first_bind_error [expNo; operator; description] with
  | Some e => (st1, Raised e)
  | None =>
  if negb (store_up env) then (st1, Raised OperationalError)
  else if existsb (has_exp_number (as_text rt expNo)) (experiments (db st))
  then (st1, Raised IntegrityError)
  else
    let t1 := Tables (experiments (db st) ++ [experiment_row rt env expNo operator description])
                (reagents (db st)) (sensor_log (db st)) in
    match py_iter (reagents_listed exp) with
    | inl e => (State t1 t1 expNo (stdout st), Raised e)
    | inr rs =>
        let t2 := Tables (experiments t1)
                    (reagents t1 ++ map (reagent_row rt expNo) (stored_reagents expNo rs))
                    (sensor_log t1) in
        match reagents_error expNo rs with
        | Some e => (State t2 t1 expNo (stdout st), Raised e)
        | None =>
            (State t2 t2 expNo (stdout st ++ Started expNo :: metadata_lines rt t2 expNo),
             Continued)
        end
    end
  end end end end end.

(** The fields the Setup branch subscripts: the experiment object, its
    number, operator and description, when all are present. *)
Definition setup_fields (parsed : json) : option (json * json * json * json) :=
  match py_subscript parsed "experiment" with
  | inr exp =>
      match py_subscript exp "expNo", py_subscript exp "operator",
            py_subscript exp "description" with
      | inr expNo, inr operator, inr description =>
          Some (exp, expNo, operator, description)
      | _, _, _ => None
      end
  | inl _ => None
  end.

(** The row a chunk adds to [sensor_log] under a given current experiment
    number, when it is a sensor sample whose values can be bound and the
    store is up. *)
Definition logged_row (rt : Runtime) (exp_number : json) (c : environment * string)
  : option SensorLog.row :=
  match classify rt (snd c) with
  | Message _ parsed =>
      match event_of parsed with
      | SensorSample =>
          match first_bind_error (sensor_params exp_number parsed) with
          | None =>
              if store_up (fst c) then Some (sensor_row rt (fst c) exp_number parsed)
              else None
          | Some _ => None
          end
      | _ => None
      end
  | _ => None
  end.


(** ** Notions used for the loop as a whole *)

(** Whether a chunk is a Stop message. *)
Definition is_stop_chunk (rt : Runtime) (data : string) : bool :=
  match classify rt data with
  | Message _ parsed =>
      match event_of parsed with
      | Stop => true
      | _ => false
      end
  | _ => false
  end.

(** Two versions of a row of [experiments] that differ at most in
    [end_time]. *)
Definition same_but_end (r r' : Experiments.row) : Prop :=
  Experiments.exp_number r' = Experiments.exp_number r /\
  Experiments.operator r' = Experiments.operator r /\
  Experiments.description r' = Experiments.description r /\
  Experiments.start_time r' = Experiments.start_time r.

(** The tables of [s'] hold every row of the tables of [s], in place,
    followed by new rows; a row of [experiments] may have got another
    [end_time]. *)
Definition grows (s s' : state) : Prop :=
  (exists kept added,
      experiments (db s') = (kept ++ added)%list /\
      Forall2 same_but_end (experiments (db s)) kept) /\
  (exists added, reagents (db s') = (reagents (db s) ++ added)%list) /\
  (exists added, sensor_log (db s') = (sensor_log (db s) ++ added)%list).

(** No experiment number occurs on two rows. *)
Definition unique_numbers (rows : list Experiments.row) : Prop :=
  forall number, count_exp (Some number) rows <= 1.

Definition unique_kept (s s' : state) : Prop :=
  unique_numbers (experiments (db s)) -> unique_numbers (experiments (db s')).

Definition same_current (s s' : state) : Prop :=
  current_exp_number s' = current_exp_number s.

Definition reagents_kept (s s' : state) : Prop :=
  reagents (db s') = reagents (db s).

Definition experiments_kept (s s' : state) : Prop :=
  experiments (db s') = experiments (db s).

(** Further chunks for the worked runs. *)

Definition noise_chunk : string := "ping".

Definition setup_null : string :=
  dq "{'type':'setup','experiment':{'expNo':null,'operator':'A','description':'no number'}}".

(** A Setup whose reagents are a text instead of a list. *)
Definition setup_reagents_text : string :=
  dq "{'type':'setup','experiment':{'expNo':'RX-5','operator':'A','description':'d','reagents':'NaOH'}}".

Definition sample_nested : string := dq "{'temp': [25.3, 25.4]}".

Definition sample_huge : string := dq "{'uvIntensity': 9223372036854775808}".

(** The experiment number line 120 assigns to the tracker when the
    chunk is received: the [expNo] of the [experiment] of a Setup
    message, when both subscripts succeed.  Nothing else assigns a
    number. *)
Definition assigned_number (rt : Runtime) (data : string) : option json :=
  match classify rt data with
  | Message _ parsed =>
      match event_of parsed with
      | Setup =>
          match py_subscript parsed "experiment" with
          | inr exp =>
              match py_subscript exp "expNo" with
              | inr expNo => Some expNo
              | inl _ => None
              end
          | inl _ => None
          end
      | _ => None
      end
  | _ => None
  end.

(** The number assigned by the last chunk that assigned one, starting
    from [assigned]. *)
Definition last_assigned_from (rt : Runtime) (assigned : option json)
  (received : list (environment * string)) : option json :=
  fold_left
    (fun acc c =>
       match assigned_number rt (snd c) with
       | Some number => Some number
       | None => acc
       end)
    received assigned.

Definition last_assigned (rt : Runtime) (received : list (environment * string))
  : option json :=
  last_assigned_from rt None received.

(** * Properties *)

Open Scope list_scope.

Section Properties.

Context (rt : Runtime).

Lemma step_classify env st data :
  step rt env st data =
  match classify rt data with
  | EndOfStream => Break
  | Undecodable => Next (printed (Error UnicodeDecodeError) st)
  | Noise line => Next (printed (RawMessage line) st)
  | Malformed line =>
      Next (printed (Error JSONDecodeError) (printed (RawMessage line) st))
  | Message line parsed =>
      Next (after_try (dispatch rt env parsed (printed (RawMessage line) st)))
  end.
Proof.
  unfold step, classify, try_body, dispatch, event_of.
  destruct data as [|c data']; [reflexivity|].
  destruct (bytes_decode rt (String c data')) as [decoded|]; [|reflexivity].
  cbn. destruct (String.prefix "{" (str_strip rt decoded)) eqn:Hp;
    unfold startswith; rewrite Hp; cbn; [|reflexivity].
  destruct (json_loads rt (str_strip rt decoded)) as [parsed|]; [|reflexivity].
  destruct parsed; try reflexivity.
  cbn. unfold bind, lift, ret. cbn.
  destruct (py_eq_str _ "setup").
  - unfold after_try. destruct (handle_setup _ _ _ _) as [s' [a|e|]]; reflexivity.
  - destruct (py_eq_str _ "stop").
    + unfold after_try. destruct (handle_stop _ _ _) as [s' [a|e|]]; reflexivity.
    + unfold after_try. destruct (handle_sensor_data _ _ _ _) as [s' [a|e|]]; reflexivity.
Qed.

Lemma event_of_dict parsed :
  event_of parsed <> NotADict -> exists d, parsed = JObj d.
Proof.
  destruct parsed; cbn; try congruence. intros _. eexists; reflexivity.
Qed.

(** A sample met by an active tracker: one row is appended and committed. *)
Lemma handle_sensor_data_active env parsed st :
  event_of parsed = SensorSample ->
  truthy (current_exp_number st) = true ->
  first_bind_error (sensor_params (current_exp_number st) parsed) = None ->
  store_up env = true ->
  let t := Tables (experiments (db st)) (reagents (db st))
             (sensor_log (db st) ++ [sensor_row rt env (current_exp_number st) parsed]) in
  handle_sensor_data rt env parsed st =
  (State t t (current_exp_number st) (stdout st ++ [LoggedSensorData]), Normal tt).
Proof.
  intros Hev Hact Hbind Hup.
  destruct (event_of_dict parsed) as [d ->]; [congruence|].
  unfold handle_sensor_data, bind, get_current. rewrite Hact. cbn.
  unfold insert_sensor_log, execute_guard, bind.
  unfold sensor_params, field in Hbind. cbn in Hbind. cbn. rewrite Hbind, Hup.
  unfold ret, get_db, set_db, commit, print. cbn. rewrite Hup. reflexivity.
Qed.

(** A sample met by an idle tracker is dropped. *)
Lemma handle_sensor_data_idle env parsed st :
  truthy (current_exp_number st) = false ->
  handle_sensor_data rt env parsed st = (printed NoActiveExperiment st, Continued).
Proof.
  intros Hidle. unfold handle_sensor_data, bind, get_current. rewrite Hidle. reflexivity.
Qed.

End Properties.

(** ** Frame rule

    Whatever relation is reflexive, transitive, and kept by printing, by
    assigning the current experiment number and by each statement sent to
    the store, is kept by a whole turn of the loop. *)

Create HintDb frame.

Section Frame.

Context (rt : Runtime) (env : environment).
Variable R : state -> state -> Prop.
Hypothesis R_refl : forall s, R s s.
Hypothesis R_trans : forall s1 s2 s3, R s1 s2 -> R s2 s3 -> R s1 s3.
Hypothesis R_print : forall l s, R s (printed l s).

Lemma preserves_ret A (a : A) : preserves R (ret a).
Proof. intros s s' c H. inversion H. apply R_refl. Qed.

Lemma preserves_raise A e : preserves R (@raise A e).
Proof. intros s s' c H. inversion H. apply R_refl. Qed.

Lemma preserves_continue A : preserves R (@continue A).
Proof. intros s s' c H. inversion H. apply R_refl. Qed.

Lemma preserves_lift A (r : exn + A) : preserves R (lift r).
Proof. destruct r; [apply preserves_raise | apply preserves_ret]. Qed.

Lemma preserves_get_current : preserves R get_current.
Proof. intros s s' c H. inversion H. apply R_refl. Qed.

Lemma preserves_get_db : preserves R get_db.
Proof. intros s s' c H. inversion H. apply R_refl. Qed.

Lemma preserves_print l : preserves R (print l).
Proof. intros s s' c H. inversion H. apply R_print. Qed.

Lemma preserves_bind A B (m : M A) (k : A -> M B) :
  preserves R m -> (forall a, preserves R (k a)) -> preserves R (bind m k).
Proof.
  intros Hm Hk s s' c. unfold bind.
  destruct (m s) as [s1 [a|e|]] eqn:E; intros H.
  - eapply R_trans; [eapply Hm; eassumption | eapply Hk; eassumption].
  - inversion H; subst. eapply Hm; eassumption.
  - inversion H; subst. eapply Hm; eassumption.
Qed.

Lemma preserves_execute_guard params : preserves R (execute_guard env params).
Proof.
  unfold execute_guard. destruct (first_bind_error params).
  - apply preserves_raise.
  - destruct (store_up env); [apply preserves_ret | apply preserves_raise].
Qed.

Hint Resolve preserves_ret preserves_raise preserves_continue preserves_lift
  preserves_get_current preserves_get_db preserves_print preserves_execute_guard
  : frame.

Ltac frame :=
  repeat first
    [ solve [auto with frame]
    | apply preserves_bind; [|intros ?] ].

Lemma preserves_print_experiment_metadata v :
  preserves R (print_experiment_metadata rt env v).
Proof.
  unfold print_experiment_metadata. frame.
  destruct (find _ _); frame.
Qed.

Hypothesis R_set_current : forall v, preserves R (set_current v).
Hypothesis R_commit : preserves R (commit env).

Lemma preserves_handle_stop :
  (forall v, preserves R (update_end_time rt env v)) ->
  preserves R (handle_stop rt env).
Proof.
  intros Hupd. pose proof preserves_print_experiment_metadata.
  unfold handle_stop. frame.
  destruct (truthy _); frame.
Qed.

Lemma preserves_insert_reagents rs :
  (forall a b c, preserves R (insert_reagent rt env a b c)) ->
  preserves R (insert_reagents rt env rs).
Proof.
  intros Hins. induction rs as [|r rs IH]; cbn [insert_reagents]; frame.
Qed.

Lemma preserves_handle_setup parsed :
  (forall a b c, preserves R (insert_experiment rt env a b c)) ->
  (forall a b c, preserves R (insert_reagent rt env a b c)) ->
  preserves R (handle_setup rt env parsed).
Proof.
  intros Hexp Hrea.
  pose proof preserves_print_experiment_metadata.
  pose proof (fun rs => preserves_insert_reagents rs Hrea).
  unfold handle_setup. frame.
Qed.

Lemma preserves_handle_sensor_data parsed :
  (forall a b c d e f g h i j k l m n o p q r,
      preserves R (insert_sensor_log rt env a b c d e f g h i j k l m n o p q r)) ->
  preserves R (handle_sensor_data rt env parsed).
Proof.
  intros Hins. unfold handle_sensor_data. frame.
  destruct (negb _); frame.
Qed.

Lemma preserves_dispatch parsed :
  (forall a b c, preserves R (insert_experiment rt env a b c)) ->
  (forall a b c, preserves R (insert_reagent rt env a b c)) ->
  (forall v, preserves R (update_end_time rt env v)) ->
  (forall a b c d e f g h i j k l m n o p q r,
      preserves R (insert_sensor_log rt env a b c d e f g h i j k l m n o p q r)) ->
  preserves R (dispatch rt env parsed).
Proof.
  intros Hexp Hrea Hupd Hsen. unfold dispatch. destruct (event_of parsed).
  - apply preserves_handle_setup; assumption.
  - apply preserves_handle_stop; assumption.
  - apply preserves_handle_sensor_data; assumption.
  - apply preserves_raise.
Qed.

Lemma preserves_after_try (m : M unit) s :
  preserves R m -> R s (after_try (m s)).
Proof.
  intros Hm. destruct (m s) as [s' c] eqn:E. pose proof (Hm _ _ _ E) as HR.
  destruct c; cbn; [assumption| |assumption].
  eapply R_trans; [exact HR|]. apply (R_print (Error e)).
Qed.

Lemma frame_step st data st' :
  (forall parsed, preserves R (dispatch rt env parsed)) ->
  step rt env st data = Next st' -> R st st'.
Proof.
  intros Hd. rewrite step_classify. destruct (classify rt data); intros H;
    inversion H; subst.
  - apply R_print.
  - apply R_print.
  - eapply R_trans; apply R_print.
  - eapply R_trans; [apply R_print|].
    apply preserves_after_try. apply Hd.
Qed.

End Frame.

(** The relation kept by every turn is kept by the whole session. *)
Lemma session_frame (rt : Runtime) (R : state -> state -> Prop) :
  (forall s, R s s) ->
  (forall s1 s2 s3, R s1 s2 -> R s2 s3 -> R s1 s3) ->
  (forall env st data st', step rt env st data = Next st' -> R st st') ->
  forall received st, R st (session rt st received).
Proof.
  intros Hrefl Htrans Hstep received.
  induction received as [|[env data] rest IH]; intros st; cbn.
  - apply Hrefl.
  - destruct (step rt env st data) as [|st'] eqn:E.
    + apply Hrefl.
    + eapply Htrans; [eapply Hstep; exact E | apply IH].
Qed.

(** ** What each statement sent to the store keeps *)

Lemma text_eqb_eq a s : text_eqb a (Some s) = true -> a = Some s.
Proof.
  destruct a as [x|]; cbn; [|discriminate].
  intros H. apply String.eqb_eq in H. congruence.
Qed.

Lemma text_eqb_refl s : text_eqb (Some s) (Some s) = true.
Proof. cbn. apply String.eqb_refl. Qed.

Lemma count_exp_app key rows rows' :
  count_exp key (rows ++ rows') = count_exp key rows + count_exp key rows'.
Proof. unfold count_exp. rewrite filter_app, length_app. reflexivity. Qed.

Lemma existsb_count_exp key rows :
  existsb (has_exp_number key) rows = true <-> 1 <= count_exp key rows.
Proof.
  unfold count_exp. induction rows as [|r rows IH]; cbn.
  - split; [discriminate | lia].
  - destruct (has_exp_number key r); cbn; [split; [lia | reflexivity] | exact IH].
Qed.

Lemma existsb_false_count_exp key rows :
  existsb (has_exp_number key) rows = false -> count_exp key rows = 0.
Proof.
  intros H. destruct (count_exp key rows) eqn:E; [reflexivity|].
  assert (existsb (has_exp_number key) rows = true) by (apply existsb_count_exp; lia).
  congruence.
Qed.

Lemma has_exp_number_stamp_end env key key' r :
  has_exp_number key (stamp_end env key' r) = has_exp_number key r.
Proof. unfold stamp_end. destruct (has_exp_number key' r); reflexivity. Qed.

Lemma count_exp_stamp_end env key key' rows :
  count_exp key (map (stamp_end env key') rows) = count_exp key rows.
Proof.
  unfold count_exp. induction rows as [|r rows IH]; cbn; [reflexivity|].
  rewrite has_exp_number_stamp_end. destruct (has_exp_number key r); cbn; congruence.
Qed.

Ltac store_op :=
  intros ? ? ?;
  unfold insert_experiment, insert_reagent, update_end_time, insert_sensor_log,
    commit, set_current, execute_guard, bind, get_db, set_db, raise, ret;
  repeat match goal with
    | |- context [match first_bind_error ?p with _ => _ end] =>
        destruct (first_bind_error p)
    | |- context [if store_up ?e then _ else _] => destruct (store_up e) eqn:?
    | |- context [if existsb ?f ?l then _ else _] => destruct (existsb f l) eqn:?
    end;
  let H := fresh in intros H; inversion H; subst; clear H; cbn.

Section Kept.

Context (rt : Runtime) (env : environment).

(** The [sensor_log] table is only written by the sensor INSERT. *)
Lemma same_sensor_log_set_current v : preserves same_sensor_log (set_current v).
Proof. store_op; reflexivity. Qed.

Lemma same_sensor_log_commit : preserves same_sensor_log (commit env).
Proof. store_op; reflexivity. Qed.

Lemma same_sensor_log_insert_experiment a b c :
  preserves same_sensor_log (insert_experiment rt env a b c).
Proof. store_op; reflexivity. Qed.

Lemma same_sensor_log_insert_reagent a b c :
  preserves same_sensor_log (insert_reagent rt env a b c).
Proof. store_op; reflexivity. Qed.

Lemma same_sensor_log_update_end_time v :
  preserves same_sensor_log (update_end_time rt env v).
Proof. store_op; reflexivity. Qed.

(** Nothing reaches the store while it is down. *)
Section Down.

Hypothesis down : store_up env = false.

Lemma same_store_set_current v : preserves same_store (set_current v).
Proof. store_op; split; reflexivity. Qed.

Lemma same_store_commit : preserves same_store (commit env).
Proof. store_op; try congruence; split; reflexivity. Qed.

Lemma same_store_insert_experiment a b c :
  preserves same_store (insert_experiment rt env a b c).
Proof. store_op; try congruence; split; reflexivity. Qed.

Lemma same_store_insert_reagent a b c :
  preserves same_store (insert_reagent rt env a b c).
Proof. store_op; try congruence; split; reflexivity. Qed.

Lemma same_store_update_end_time v :
  preserves same_store (update_end_time rt env v).
Proof. store_op; try congruence; split; reflexivity. Qed.

Lemma same_store_insert_sensor_log a b c d e f g h i j k l m n o p q r :
  preserves same_store (insert_sensor_log rt env a b c d e f g h i j k l m n o p q r).
Proof. store_op; try congruence; split; reflexivity. Qed.

End Down.

(** An experiment number that is in the table stays there exactly as
    often: no row is deleted, and the UNIQUE constraint refuses a second
    one. *)
Section Count.

Variable number : string.

Lemma count_kept_set_current v : preserves (count_kept (Some number)) (set_current v).
Proof. store_op; intros _; reflexivity. Qed.

Lemma count_kept_commit : preserves (count_kept (Some number)) (commit env).
Proof. store_op; intros _; reflexivity. Qed.

Lemma count_kept_insert_reagent a b c :
  preserves (count_kept (Some number)) (insert_reagent rt env a b c).
Proof. store_op; intros _; reflexivity. Qed.

Lemma count_kept_insert_sensor_log a b c d e f g h i j k l m n o p q r :
  preserves (count_kept (Some number))
    (insert_sensor_log rt env a b c d e f g h i j k l m n o p q r).
Proof. store_op; intros _; reflexivity. Qed.

Lemma count_kept_update_end_time v :
  preserves (count_kept (Some number)) (update_end_time rt env v).
Proof. store_op; intros _; try reflexivity. apply count_exp_stamp_end. Qed.

Lemma count_kept_insert_experiment a b c :
  preserves (count_kept (Some number)) (insert_experiment rt env a b c).
Proof.
  store_op; intros Hone; cbn [db experiments]; try reflexivity.
  rewrite count_exp_app. unfold count_exp at 2. cbn.
  destruct (has_exp_number (Some number) _) eqn:Hnew; cbn; [|lia].
  unfold has_exp_number in Hnew. cbn in Hnew. apply text_eqb_eq in Hnew.
  rewrite Hnew in *.
  match goal with
  | Hex : existsb _ _ = false |- _ => apply existsb_false_count_exp in Hex; lia
  end.
Qed.

End Count.

End Kept.

(** ** What a turn of the loop keeps *)

Lemma same_store_refl s : same_store s s.
Proof. split; reflexivity. Qed.

Lemma same_store_trans s1 s2 s3 : same_store s1 s2 -> same_store s2 s3 -> same_store s1 s3.
Proof. unfold same_store. intros [? ?] [? ?]. split; congruence. Qed.

Lemma same_sensor_log_trans s1 s2 s3 :
  same_sensor_log s1 s2 -> same_sensor_log s2 s3 -> same_sensor_log s1 s3.
Proof. unfold same_sensor_log. congruence. Qed.

Lemma count_kept_refl key s : count_kept key s s.
Proof. intros _. reflexivity. Qed.

Lemma count_kept_trans key s1 s2 s3 :
  count_kept key s1 s2 -> count_kept key s2 s3 -> count_kept key s1 s3.
Proof. unfold count_kept. intros H12 H23 H1. rewrite H23; rewrite H12; auto. Qed.

Section Turn.

Context (rt : Runtime).

(** A turn with the store down writes nothing. *)
Lemma step_store_down env st data st' :
  store_up env = false ->
  step rt env st data = Next st' -> same_store st st'.
Proof.
  intros Hdown. apply frame_step.
  - exact same_store_trans.
  - intros l s. split; reflexivity.
  - intros parsed. apply preserves_dispatch.
    + exact same_store_refl.
    + exact same_store_trans.
    + intros l s. split; reflexivity.
    + apply same_store_set_current.
    + apply same_store_commit, Hdown.
    + intros; apply same_store_insert_experiment, Hdown.
    + intros; apply same_store_insert_reagent, Hdown.
    + intros; apply same_store_update_end_time, Hdown.
    + intros; apply same_store_insert_sensor_log, Hdown.
Qed.

(** No turn changes how often a stored experiment number occurs. *)
Lemma step_count_kept number env st data st' :
  step rt env st data = Next st' -> count_kept (Some number) st st'.
Proof.
  apply frame_step.
  - apply count_kept_trans.
  - intros l s _. reflexivity.
  - intros parsed. apply preserves_dispatch.
    + apply count_kept_refl.
    + apply count_kept_trans.
    + intros l s _. reflexivity.
    + apply count_kept_set_current.
    + apply count_kept_commit.
    + intros; apply count_kept_insert_experiment.
    + intros; apply count_kept_insert_reagent.
    + intros; apply count_kept_update_end_time.
    + intros; apply count_kept_insert_sensor_log.
Qed.

Lemma session_count_kept number received st :
  count_kept (Some number) st (session rt st received).
Proof.
  apply session_frame.
  - apply count_kept_refl.
  - apply count_kept_trans.
  - intros env s data s'. apply step_count_kept.
Qed.

(** Setup and Stop leave [sensor_log] alone. *)
Lemma handle_setup_same_sensor_log env parsed :
  preserves same_sensor_log (handle_setup rt env parsed).
Proof.
  apply preserves_handle_setup.
  - reflexivity.
  - exact same_sensor_log_trans.
  - reflexivity.
  - apply same_sensor_log_set_current.
  - apply same_sensor_log_commit.
  - intros; apply same_sensor_log_insert_experiment.
  - intros; apply same_sensor_log_insert_reagent.
Qed.

Lemma handle_stop_same_sensor_log env :
  preserves same_sensor_log (handle_stop rt env).
Proof.
  apply preserves_handle_stop.
  - reflexivity.
  - exact same_sensor_log_trans.
  - reflexivity.
  - apply same_sensor_log_set_current.
  - apply same_sensor_log_commit.
  - intros; apply same_sensor_log_update_end_time.
Qed.

End Turn.

(** ** The loop and its exits *)

Section Loop.

Context (rt : Runtime).

Lemma step_message env st data line parsed :
  classify rt data = Message line parsed ->
  step rt env st data =
  Next (after_try (dispatch rt env parsed (printed (RawMessage line) st))).
Proof. intros H. rewrite step_classify, H. reflexivity. Qed.


Lemma classify_empty data : classify rt data = EndOfStream <-> data = EmptyString.
Proof.
  unfold classify. destruct data as [|c data']; [tauto|].
  split; [|discriminate].
  destruct (bytes_decode rt _); [|discriminate].
  destruct (startswith _ _); [|discriminate].
  destruct (json_loads rt _); discriminate.
Qed.

Lemma step_break env st data : step rt env st data = Break <-> data = EmptyString.
Proof.
  rewrite <- classify_empty, step_classify.
  destruct (classify rt data); split; congruence.
Qed.

Lemma step_raised env st data e st1 :
  data <> EmptyString ->
  try_body rt env data st = (st1, Raised e) ->
  step rt env st data = Next (printed (Error e) st1).
Proof.
  intros Hne Hbody. unfold step. rewrite Hbody.
  destruct data; [congruence | reflexivity].
Qed.

Lemma terminates_empty_read st received :
  terminates rt st received =
  existsb (fun c => String.eqb (snd c) EmptyString) received.
Proof.
  revert st. induction received as [|[env data] rest IH]; intros st; cbn; [reflexivity|].
  destruct (step rt env st data) as [|st'] eqn:E.
  - apply step_break in E. subst. reflexivity.
  - rewrite IH. destruct (String.eqb data EmptyString) eqn:Hd; [|reflexivity].
    apply String.eqb_eq in Hd. apply step_break with (env := env) (st := st) in Hd.
    congruence.
Qed.

(** C4 (as amended): no failure raised while a message is processed ends
    the loop, a failure of the store included.  The loop is left on an
    empty read and on nothing else; an exception of any class raised in
    the body is printed and the loop goes on; a turn taken while the store
    is down leaves the tables as they were; and a session terminates
    exactly when one of its reads is empty. *)
Theorem loop_ends_only_on_empty_read :
  (forall env st data, step rt env st data = Break <-> data = EmptyString) /\
  (forall env st data e st1,
      data <> EmptyString ->
      try_body rt env data st = (st1, Raised e) ->
      step rt env st data = Next (printed (Error e) st1)) /\
  (forall env st data st',
      store_up env = false ->
      step rt env st data = Next st' ->
      db st' = db st /\ disk st' = disk st) /\
  (forall st received,
      terminates rt st received =
      existsb (fun c => String.eqb (snd c) EmptyString) received).
Proof.
  split; [exact step_break|].
  split; [exact step_raised|].
  split; [|exact terminates_empty_read].
  intros env st data st' Hdown Hstep.
  exact (step_store_down rt env st data Hdown Hstep).
Qed.

(** C6: a chunk that opens with a brace but is not JSON changes no table
    (so no row count), leaves the tracker alone, and the loop goes on with
    the next chunk; and whatever a chunk holds, as long as it is not
    empty, the loop goes on. *)
Theorem malformed_chunk_is_dropped env st data line :
  classify rt data = Malformed line ->
  (exists st',
      step rt env st data = Next st' /\
      db st' = db st /\ disk st' = disk st /\
      row_counts (db st') = row_counts (db st) /\
      current_exp_number st' = current_exp_number st /\
      stdout st' = (stdout st ++ [RawMessage line; Error JSONDecodeError])%list /\
      forall received, session rt st ((env, data) :: received) = session rt st' received) /\
  (forall env' st0 data',
      data' <> EmptyString -> exists st1, step rt env' st0 data' = Next st1).
Proof.
  intros Hbad. split.
  - eexists. rewrite step_classify, Hbad.
    split; [reflexivity|]. cbn.
    repeat split.
    + rewrite <- app_assoc. reflexivity.
    + intros received. rewrite step_classify, Hbad. reflexivity.
  - intros env' st0 data' Hne.
    destruct (step rt env' st0 data') as [|st1] eqn:E; [|eexists; reflexivity].
    apply step_break in E. contradiction.
Qed.

End Loop.

(** ** Sensor samples *)

Section Samples.

Context (rt : Runtime).

Lemma db_after_try (r : state * completion unit) : db (after_try r) = db (fst r).
Proof. destruct r as [s [a|e|]]; reflexivity. Qed.

Lemma current_after_try (r : state * completion unit) :
  current_exp_number (after_try r) = current_exp_number (fst r).
Proof. destruct r as [s [a|e|]]; reflexivity. Qed.

(** The sensor branch under an active tracker, case by case. *)
Lemma handle_sensor_data_cases env parsed st :
  event_of parsed = SensorSample ->
  truthy (current_exp_number st) = true ->
  handle_sensor_data rt env parsed st =
  match first_bind_error (sensor_params (current_exp_number st) parsed) with
  | Some e => (st, Raised e)
  | None =>
      if store_up env then
        let t := Tables (experiments (db st)) (reagents (db st))
                   (sensor_log (db st) ++ [sensor_row rt env (current_exp_number st) parsed]) in
        (State t t (current_exp_number st) (stdout st ++ [LoggedSensorData]), Normal tt)
      else (st, Raised OperationalError)
  end.
Proof.
  intros Hev Hact.
  destruct (first_bind_error _) as [e|] eqn:Hbind.
  - destruct (event_of_dict parsed) as [d ->]; [congruence|].
    unfold handle_sensor_data, bind, get_current. rewrite Hact. cbn.
    unfold insert_sensor_log, execute_guard, bind.
    unfold sensor_params, field in Hbind. cbn in Hbind. cbn. rewrite Hbind.
    reflexivity.
  - destruct (store_up env) eqn:Hup.
    + apply handle_sensor_data_active; assumption.
    + destruct (event_of_dict parsed) as [d ->]; [congruence|].
      unfold handle_sensor_data, bind, get_current. rewrite Hact. cbn.
      unfold insert_sensor_log, execute_guard, bind.
      unfold sensor_params, field in Hbind. cbn in Hbind. cbn. rewrite Hbind, Hup.
      reflexivity.
Qed.



(** The effect of any turn on [sensor_log]. *)
Lemma step_sensor_log env st data st' :
  step rt env st data = Next st' ->
  sensor_log (db st') = sensor_log (db st) \/
  (truthy (current_exp_number st) = true /\
   exists row,
     sensor_log (db st') = sensor_log (db st) ++ [row] /\
     SensorLog.exp_number row = as_text rt (current_exp_number st)).
Proof.
  rewrite step_classify.
  destruct (classify rt data) as [| |l|l|l parsed]; intros H; inversion H; subst; clear H;
    try (left; reflexivity).
  rewrite db_after_try. set (st1 := printed (RawMessage l) st).
  unfold dispatch. destruct (event_of parsed) eqn:Hev.
  - left. destruct (handle_setup rt env parsed st1) as [s' c] eqn:E.
    exact (handle_setup_same_sensor_log rt env parsed _ E).
  - left. destruct (handle_stop rt env st1) as [s' c] eqn:E.
    exact (handle_stop_same_sensor_log rt env _ E).
  - destruct (truthy (current_exp_number st)) eqn:Hact.
    + rewrite handle_sensor_data_cases by assumption.
      destruct (first_bind_error _); [left; reflexivity|].
      destruct (store_up env); [|left; reflexivity].
      right. split; [reflexivity|]. eexists. split; reflexivity.
    + rewrite handle_sensor_data_idle by assumption. left. reflexivity.
  - left. reflexivity.
Qed.

(** A turn that is not a Setup keeps an idle tracker idle. *)
Lemma step_stays_idle env st data st' :
  is_setup_chunk rt data = false ->
  truthy (current_exp_number st) = false ->
  step rt env st data = Next st' ->
  truthy (current_exp_number st') = false /\ sensor_log (db st') = sensor_log (db st).
Proof.
  unfold is_setup_chunk. rewrite step_classify.
  destruct (classify rt data) as [| |l|l|l parsed]; intros Hns Hidle H;
    inversion H; subst; clear H; try (split; [exact Hidle | reflexivity]).
  rewrite db_after_try, current_after_try. unfold dispatch.
  destruct (event_of parsed) eqn:Hev; try discriminate.
  - unfold handle_stop, bind, get_current. cbn. rewrite Hidle. cbn.
    split; [exact Hidle | reflexivity].
  - rewrite handle_sensor_data_idle by exact Hidle. cbn.
    split; [exact Hidle | reflexivity].
  - cbn. split; [exact Hidle | reflexivity].
Qed.

Lemma session_stays_idle received : forall st,
  forallb (fun c => negb (is_setup_chunk rt (snd c))) received = true ->
  truthy (current_exp_number st) = false ->
  sensor_log (db (session rt st received)) = sensor_log (db st).
Proof.
  induction received as [|[env data] rest IH]; intros st Hall Hidle; cbn; [reflexivity|].
  cbn in Hall. apply andb_true_iff in Hall as [Hns Hrest].
  apply negb_true_iff in Hns.
  destruct (step rt env st data) as [|st'] eqn:E; [reflexivity|].
  destruct (step_stays_idle env st data Hns Hidle E) as [Hidle' Hlog].
  rewrite (IH st' Hrest Hidle'). exact Hlog.
Qed.

End Samples.

(** ** The Setup and Stop branches *)

Section Branches.

Context (rt : Runtime).

Lemma state_eta s : State (db s) (disk s) (current_exp_number s) (stdout s) = s.
Proof. destruct s; reflexivity. Qed.

Lemma tables_eta t : Tables (experiments t) (reagents t) (sensor_log t) = t.
Proof. destruct t; reflexivity. Qed.

Lemma print_experiment_metadata_up env v s :
  bind_error v = None ->
  store_up env = true ->
  print_experiment_metadata rt env v s =
  (State (db s) (disk s) (current_exp_number s) (stdout s ++ metadata_lines rt (db s) v),
   Normal tt).
Proof.
  intros Hb Hup.
  assert (H1 : first_bind_error [v] = None)
    by (cbn [first_bind_error]; rewrite Hb; reflexivity).
  unfold print_experiment_metadata, metadata_lines, execute_guard, bind, get_db.
  rewrite H1, Hup. unfold ret, print. cbn [db experiments reagents].
  destruct (find _ _) as [r|]; [|reflexivity].
  cbn. rewrite <- app_assoc. reflexivity.
Qed.

Lemma insert_reagents_run env rs : forall s,
  store_up env = true ->
  insert_reagents rt env rs s =
  (State
     (Tables (experiments (db s))
        (reagents (db s) ++
           map (reagent_row rt (current_exp_number s))
             (stored_reagents (current_exp_number s) rs))
        (sensor_log (db s)))
     (disk s) (current_exp_number s) (stdout s),
   match reagents_error (current_exp_number s) rs with
   | Some e => Raised e
   | None => Normal tt
   end).
Proof.
  induction rs as [|r rs IH]; intros s Hup; cbn [insert_reagents stored_reagents reagents_error].
  - cbn. rewrite app_nil_r, tables_eta, state_eta. reflexivity.
  - unfold bind at 1. unfold get_current at 1. unfold reagent_error.
    unfold bind at 1.
    destruct (py_subscript r "name") as [e|name] eqn:Hname; cbn [lift].
    + cbn. rewrite app_nil_r, tables_eta, state_eta. reflexivity.
    + unfold ret at 1. unfold bind at 1.
      destruct (py_get_default r "concentration" JNull) as [e|conc] eqn:Hconc; cbn [lift].
      * cbn. rewrite app_nil_r, tables_eta, state_eta. reflexivity.
      * unfold ret at 1. unfold bind at 1.
        unfold insert_reagent, execute_guard. unfold bind at 1. unfold bind at 1.
        destruct (first_bind_error [current_exp_number s; name; conc]) eqn:Hbind.
        -- cbn. rewrite app_nil_r, tables_eta, state_eta. reflexivity.
        -- rewrite Hup. cbn [ret get_db set_db bind]. unfold get_db, set_db, bind. cbn.
           rewrite IH by exact Hup. cbn.
           assert (Hrow : reagent_row rt (current_exp_number s) r =
                          Reagents.Row (as_text rt (current_exp_number s))
                            (as_text rt name) (stored rt REAL (bind_value conc))).
           { unfold reagent_row, field. destruct r; try discriminate.
             cbn in Hname, Hconc. cbn.
             destruct (dict_get members "name"); [|discriminate].
             inversion Hname; subst.
             destruct (dict_get members "concentration"); inversion Hconc; reflexivity. }
           rewrite Hrow, <- app_assoc. reflexivity.
Qed.

Lemma first_bind_error_head p ps :
  first_bind_error (p :: ps) = None -> bind_error p = None.
Proof. cbn. destruct (bind_error p); [discriminate | reflexivity]. Qed.

Ltac norm :=
  cbv beta iota delta
    [bind ret lift raise continue get_current set_current get_db set_db print
     db disk current_exp_number stdout experiments reagents sensor_log].

Lemma handle_setup_result env parsed st :
  handle_setup rt env parsed st = setup_result rt env parsed st.
Proof.
  unfold handle_setup, setup_result. norm.
  destruct (py_subscript parsed "experiment") as [e|exp]; [reflexivity|]. norm.
  destruct (py_subscript exp "expNo") as [e|expNo] eqn:HexpNo; [reflexivity|]. norm.
  destruct (py_subscript exp "operator") as [e|operator]; [reflexivity|]. norm.
  destruct (py_subscript exp "description") as [e|description]; [reflexivity|]. norm.
  unfold insert_experiment, execute_guard. norm.
  destruct (first_bind_error [expNo; operator; description]) eqn:Hbind; [reflexivity|].
  destruct (store_up env) eqn:Hup; [|reflexivity]. norm. cbn [negb].
  destruct st as [[exps reags slog] dsk cur out]. norm.
  destruct (existsb _ exps) eqn:Hex; [reflexivity|]. norm.
  unfold commit at 1. rewrite Hup. norm.
  destruct exp as [| | | | | |members]; try discriminate.
  unfold reagents_listed. cbn [py_get_default]. norm.
  destruct (py_iter _) as [e|rs]; [reflexivity|]. norm.
  rewrite insert_reagents_run by exact Hup. norm.
  destruct (reagents_error expNo rs); [reflexivity|]. norm.
  unfold commit at 1. rewrite Hup. norm.
  rewrite print_experiment_metadata_up
    by (try exact Hup; apply first_bind_error_head in Hbind; exact Hbind).
  norm. rewrite <- app_assoc. reflexivity.
Qed.

Lemma handle_stop_result env st :
  handle_stop rt env st = stop_result rt env st.
Proof.
  unfold handle_stop, stop_result, stopped_state. norm.
  destruct st as [[exps reags slog] dsk cur out]. norm.
  destruct (truthy cur); [|reflexivity].
  unfold update_end_time, execute_guard. norm. cbn [first_bind_error].
  destruct (bind_error cur) eqn:Hb; [reflexivity|].
  destruct (store_up env) eqn:Hup; [|reflexivity]. norm.
  unfold commit at 1. rewrite Hup. norm.
  rewrite print_experiment_metadata_up by assumption.
  norm. rewrite <- app_assoc. reflexivity.
Qed.

End Branches.

(** ** Stop *)

Section Stopping.

Context (rt : Runtime).

Lemma step_stop env st data line parsed :
  classify rt data = Message line parsed ->
  event_of parsed = Stop ->
  step rt env st data =
  Next (after_try (stop_result rt env (printed (RawMessage line) st))).
Proof.
  intros Hmsg Hev. rewrite (step_message rt env st data Hmsg).
  unfold dispatch. rewrite Hev, handle_stop_result. reflexivity.
Qed.

Lemma stamp_end_columns env key r :
  Experiments.exp_number (stamp_end env key r) = Experiments.exp_number r /\
  Experiments.operator (stamp_end env key r) = Experiments.operator r /\
  Experiments.description (stamp_end env key r) = Experiments.description r /\
  Experiments.start_time (stamp_end env key r) = Experiments.start_time r /\
  Experiments.end_time (stamp_end env key r) =
    (if text_eqb (Experiments.exp_number r) key then Some (now env)
     else Experiments.end_time r).
Proof.
  unfold stamp_end, has_exp_number.
  destruct (text_eqb (Experiments.exp_number r) key); cbn; repeat split.
Qed.

Lemma map_stamp_end_no_match env key rows :
  existsb (has_exp_number key) rows = false ->
  map (stamp_end env key) rows = rows.
Proof.
  induction rows as [|r rows IH]; cbn; [reflexivity|].
  intros H. apply orb_false_iff in H as [Hr Hrows].
  unfold stamp_end at 1. rewrite Hr, IH by exact Hrows. reflexivity.
Qed.


End Stopping.

(** ** Setup *)

Section SettingUp.

Context (rt : Runtime).

Lemma step_setup env st data line parsed :
  classify rt data = Message line parsed ->
  event_of parsed = Setup ->
  step rt env st data =
  Next (after_try (setup_result rt env parsed (printed (RawMessage line) st))).
Proof.
  intros Hmsg Hev. rewrite (step_message rt env st data Hmsg).
  unfold dispatch. rewrite Hev, handle_setup_result. reflexivity.
Qed.

Lemma setup_fields_inv parsed exp expNo operator description :
  setup_fields parsed = Some (exp, expNo, operator, description) ->
  py_subscript parsed "experiment" = inr exp /\
  py_subscript exp "expNo" = inr expNo /\
  py_subscript exp "operator" = inr operator /\
  py_subscript exp "description" = inr description.
Proof.
  unfold setup_fields.
  destruct (py_subscript parsed "experiment") as [|exp']; [discriminate|].
  destruct (py_subscript exp' "expNo") eqn:Hn; [discriminate|].
  destruct (py_subscript exp' "operator") eqn:Ho; [discriminate|].
  destruct (py_subscript exp' "description") eqn:Hd; [discriminate|].
  intros H. inversion H; subst. auto.
Qed.

(** A Setup whose number collides: the INSERT raises, after the tracker
    was assigned. *)
Lemma setup_result_collision env parsed st exp expNo operator description :
  setup_fields parsed = Some (exp, expNo, operator, description) ->
  first_bind_error [expNo; operator; description] = None ->
  store_up env = true ->
  existsb (has_exp_number (as_text rt expNo)) (experiments (db st)) = true ->
  setup_result rt env parsed st =
  (State (db st) (disk st) expNo (stdout st), Raised IntegrityError).
Proof.
  intros Hf Hbind Hup Hex.
  destruct (setup_fields_inv parsed Hf) as (He & Hn & Ho & Hd).
  unfold setup_result. rewrite He, Hn, Ho, Hd, Hbind, Hup, Hex. reflexivity.
Qed.

(** A Setup whose number is new: the experiment row is inserted and
    committed, then the reagents are gone through. *)
Lemma setup_result_fresh env parsed st exp expNo operator description :
  setup_fields parsed = Some (exp, expNo, operator, description) ->
  first_bind_error [expNo; operator; description] = None ->
  store_up env = true ->
  existsb (has_exp_number (as_text rt expNo)) (experiments (db st)) = false ->
  setup_result rt env parsed st =
  let t1 := Tables (experiments (db st) ++ [experiment_row rt env expNo operator description])
              (reagents (db st)) (sensor_log (db st)) in
  match py_iter (reagents_listed exp) with
  | inl e => (State t1 t1 expNo (stdout st), Raised e)
  | inr rs =>
      let t2 := Tables (experiments t1)
                  (reagents t1 ++ map (reagent_row rt expNo) (stored_reagents expNo rs))
                  (sensor_log t1) in
      match reagents_error expNo rs with
      | Some e => (State t2 t1 expNo (stdout st), Raised e)
      | None =>
          (State t2 t2 expNo (stdout st ++ Started expNo :: metadata_lines rt t2 expNo),
           Continued)
      end
  end.
Proof.
  intros Hf Hbind Hup Hex.
  destruct (setup_fields_inv parsed Hf) as (He & Hn & Ho & Hd).
  unfold setup_result. rewrite He, Hn, Ho, Hd, Hbind, Hup, Hex. reflexivity.
Qed.

(** Whatever becomes of a Setup, once [expNo] was read the tracker holds
    it. *)
Lemma setup_result_current env parsed st exp expNo :
  py_subscript parsed "experiment" = inr exp ->
  py_subscript exp "expNo" = inr expNo ->
  current_exp_number (fst (setup_result rt env parsed st)) = expNo.
Proof.
  intros He Hn. unfold setup_result. rewrite He, Hn.
  destruct (py_subscript exp "operator"); [reflexivity|].
  destruct (py_subscript exp "description"); [reflexivity|].
  destruct (first_bind_error _); [reflexivity|].
  destruct (negb (store_up env)); [reflexivity|].
  destruct (existsb _ _); [reflexivity|].
  cbv zeta. destruct (py_iter _); [reflexivity|].
  destruct (reagents_error _ _); reflexivity.
Qed.

Lemma setup_result_experiments env parsed st exp expNo operator description :
  setup_fields parsed = Some (exp, expNo, operator, description) ->
  first_bind_error [expNo; operator; description] = None ->
  store_up env = true ->
  experiments (db (fst (setup_result rt env parsed st))) =
  if existsb (has_exp_number (as_text rt expNo)) (experiments (db st))
  then experiments (db st)
  else experiments (db st) ++ [experiment_row rt env expNo operator description].
Proof.
  intros Hf Hbind Hup.
  destruct (existsb _ _) eqn:Hex.
  - rewrite (setup_result_collision env parsed st Hf Hbind Hup Hex). reflexivity.
  - rewrite (setup_result_fresh env parsed st Hf Hbind Hup Hex). cbv zeta.
    destruct (py_iter _); [reflexivity|].
    destruct (reagents_error _ _); reflexivity.
Qed.

(** The session up to a chunk, then the chunk. *)
Lemma session_snoc received : forall st env data,
  forallb (fun c => negb (String.eqb (snd c) EmptyString)) received = true ->
  session rt st (received ++ [(env, data)]) =
  match step rt env (session rt st received) data with
  | Break => session rt st received
  | Next st' => st'
  end.
Proof.
  induction received as [|[env0 data0] rest IH]; intros st env data Hall; cbn.
  - destruct (step rt env st data); reflexivity.
  - cbn in Hall. apply andb_true_iff in Hall as [Hne Hrest].
    destruct (step rt env0 st data0) as [|st'] eqn:E.
    + apply step_break in E. subst. discriminate.
    + apply IH. exact Hrest.
Qed.

Lemma classify_message_nonempty data line parsed :
  classify rt data = Message line parsed ->
  negb (String.eqb data EmptyString) = true.
Proof. destruct data; [discriminate | reflexivity]. Qed.

End SettingUp.

(** ** Where the number of a logged row comes from *)

Section Provenance.

Context (rt : Runtime).

(** Once line 120 is reached the tracker holds the number read, whatever
    becomes of the rest of the Setup. *)
Lemma step_assigns env st data number st' :
  assigned_number rt data = Some number ->
  step rt env st data = Next st' ->
  current_exp_number st' = number.
Proof.
  unfold assigned_number.
  destruct (classify rt data) as [| |l|l|l parsed] eqn:Hmsg; try discriminate.
  destruct (event_of parsed) eqn:Hev; try discriminate.
  destruct (py_subscript parsed "experiment") as [e|exp] eqn:He; try discriminate.
  destruct (py_subscript exp "expNo") as [e|expNo] eqn:Hn; try discriminate.
  intros Hnum Hstep. inversion Hnum; subst expNo; clear Hnum.
  rewrite (step_setup rt env st data Hmsg Hev) in Hstep.
  inversion Hstep; subst st'; clear Hstep.
  rewrite current_after_try.
  exact (setup_result_current rt env parsed (printed (RawMessage l) st) He Hn).
Qed.

(** A chunk that assigns no number leaves the tracker as it was or
    clears it. *)
Lemma step_keeps_or_clears env st data st' :
  assigned_number rt data = None ->
  step rt env st data = Next st' ->
  current_exp_number st' = current_exp_number st \/ current_exp_number st' = JNull.
Proof.
  unfold assigned_number. rewrite step_classify.
  destruct (classify rt data) as [| |l|l|l parsed]; intros Hnone H;
    inversion H; subst; clear H; try (left; reflexivity).
  rewrite current_after_try. unfold dispatch.
  destruct (event_of parsed) eqn:Hev.
  - rewrite handle_setup_result. unfold setup_result.
    destruct (py_subscript parsed "experiment") as [e|exp]; [left; reflexivity|].
    destruct (py_subscript exp "expNo") as [e|expNo]; [left; reflexivity|discriminate].
  - rewrite handle_stop_result. unfold stop_result. cbn [printed current_exp_number].
    destruct (truthy (current_exp_number st)); [|left; reflexivity].
    destruct (bind_error (current_exp_number st)); [left; reflexivity|].
    destruct (store_up env); [right | left]; reflexivity.
  - left. destruct (truthy (current_exp_number st)) eqn:Hact.
    + rewrite handle_sensor_data_cases by assumption.
      destruct (first_bind_error _); [reflexivity|].
      destruct (store_up env); reflexivity.
    + rewrite handle_sensor_data_idle by exact Hact. reflexivity.
  - left. reflexivity.
Qed.

(** As long as the loop runs, the tracker is None or the number assigned
    last. *)
Lemma session_tracker received : forall st assigned,
  terminates rt st received = false ->
  current_exp_number st = JNull \/ assigned = Some (current_exp_number st) ->
  let st' := session rt st received in
  current_exp_number st' = JNull \/
  last_assigned_from rt assigned received = Some (current_exp_number st').
Proof.
  induction received as [|[env data] rest IH]; intros st assigned Hrun Hinv; cbn.
  - exact Hinv.
  - cbn in Hrun. destruct (step rt env st data) as [|st1] eqn:Hstep; [discriminate|].
    apply IH; [exact Hrun|].
    destruct (assigned_number rt data) as [number|] eqn:Hnum.
    + right. rewrite (step_assigns env st data Hnum Hstep). reflexivity.
    + destruct (step_keeps_or_clears env st data Hnum Hstep) as [Hsame|Hnull].
      * rewrite Hsame. exact Hinv.
      * left. exact Hnull.
Qed.

(** C2 (as amended): a sensor sample received while no experiment is
    active is dropped: no table changes, no row with a NULL experiment
    number is written.  Every turn of the loop leaves [sensor_log] as it
    was or appends one row, and then the tracker was active and the row
    carries the experiment number it held when the chunk was received.
    In a session that starts idle, no row is logged as long as no Setup
    has been received, and the number a logged row carries is the one
    read from the last Setup message received before the sample: the
    number line 120 assigned, whether or not that Setup went on to store
    an experiment row. *)
Theorem idle_sample_is_dropped :
  (forall env st data line parsed,
      classify rt data = Message line parsed ->
      event_of parsed = SensorSample ->
      truthy (current_exp_number st) = false ->
      exists st',
        step rt env st data = Next st' /\
        db st' = db st /\ disk st' = disk st /\
        current_exp_number st' = current_exp_number st /\
        stdout st' = (stdout st ++ [RawMessage line; NoActiveExperiment])%list) /\
  (forall env st data st',
      step rt env st data = Next st' ->
      sensor_log (db st') = sensor_log (db st) \/
      (truthy (current_exp_number st) = true /\
       exists row,
         sensor_log (db st') = sensor_log (db st) ++ [row] /\
         SensorLog.exp_number row = as_text rt (current_exp_number st))) /\
  (forall found received,
      forallb (fun c => negb (is_setup_chunk rt (snd c))) received = true ->
      sensor_log (db (session rt (initial_state found) received)) = sensor_log found) /\
  (forall found received env data st' row,
      terminates rt (initial_state found) received = false ->
      let st := session rt (initial_state found) received in
      step rt env st data = Next st' ->
      sensor_log (db st') = sensor_log (db st) ++ [row] ->
      exists number,
        last_assigned rt received = Some number /\
        current_exp_number st = number /\
        truthy number = true /\
        SensorLog.exp_number row = as_text rt number).
Proof.
  split; [|split; [|split]].
  - intros env st data line parsed Hmsg Hev Hidle.
    eexists. split; [apply step_message; exact Hmsg|].
    unfold dispatch. rewrite Hev, handle_sensor_data_idle by exact Hidle.
    cbn. repeat split. rewrite <- app_assoc. reflexivity.
  - exact (step_sensor_log rt).
  - intros found received Hall.
    apply (session_stays_idle rt received (initial_state found) Hall). reflexivity.
  - intros found received env data st' row Hrun st Hstep Hlog.
    destruct (step_sensor_log rt env st data Hstep) as [Hsame|(Hact & row' & Hlog' & Hnum)].
    + rewrite Hsame in Hlog. apply (f_equal (@List.length _)) in Hlog.
      rewrite length_app in Hlog. cbn in Hlog. lia.
    + rewrite Hlog' in Hlog. apply app_inv_head in Hlog.
      inversion Hlog; subst row'; clear Hlog.
      exists (current_exp_number st).
      destruct (@session_tracker received (initial_state found) None Hrun
                  (or_introl eq_refl))
        as [Hnull|Hlast].
      * fold st in Hnull. rewrite Hnull in Hact. discriminate.
      * repeat split; assumption.
Qed.

End Provenance.

(** ** One experiment number, one row *)

Section Uniqueness.

Context (rt : Runtime).

(** After a Setup that reaches the INSERT, its number is in the table
    once, provided it was there at most once before. *)
Lemma setup_count_one env st data line parsed exp expNo operator description number :
  classify rt data = Message line parsed ->
  event_of parsed = Setup ->
  setup_fields parsed = Some (exp, expNo, operator, description) ->
  first_bind_error [expNo; operator; description] = None ->
  store_up env = true ->
  as_text rt expNo = Some number ->
  count_exp (Some number) (experiments (db st)) <= 1 ->
  exists st',
    step rt env st data = Next st' /\
    count_exp (Some number) (experiments (db st')) = 1.
Proof.
  intros Hmsg Hev Hf Hbind Hup Htext Hle.
  eexists. split; [eapply step_setup; eassumption|].
  rewrite db_after_try.
  rewrite (setup_result_experiments rt env parsed (printed (RawMessage line) st) Hf Hbind Hup).
  rewrite Htext. cbn [printed db].
  destruct (existsb _ _) eqn:Hex.
  - apply existsb_count_exp in Hex. lia.
  - apply existsb_false_count_exp in Hex.
    rewrite count_exp_app, Hex. unfold count_exp, experiment_row, has_exp_number. cbn.
    rewrite Htext, text_eqb_refl. reflexivity.
Qed.

(** C1 (as amended): of two Setup messages that carry the same
    experiment number and both reach the INSERT of line 123 (operator and
    description present, values the store can bind, store up), with
    whatever chunks between them, only one leaves a row: after the second
    the number is in [experiments] exactly once, the second INSERT is
    refused by the UNIQUE constraint, the refusal is printed as an
    IntegrityError, and the tables are as they were before the second
    Setup, so the first row is not overwritten. *)
Theorem second_setup_is_rejected
  st0 number between
  env1 data1 line1 parsed1 exp1 expNo1 operator1 description1
  env2 data2 line2 parsed2 exp2 expNo2 operator2 description2 :
  classify rt data1 = Message line1 parsed1 ->
  event_of parsed1 = Setup ->
  setup_fields parsed1 = Some (exp1, expNo1, operator1, description1) ->
  first_bind_error [expNo1; operator1; description1] = None ->
  store_up env1 = true ->
  as_text rt expNo1 = Some number ->
  classify rt data2 = Message line2 parsed2 ->
  event_of parsed2 = Setup ->
  setup_fields parsed2 = Some (exp2, expNo2, operator2, description2) ->
  first_bind_error [expNo2; operator2; description2] = None ->
  store_up env2 = true ->
  as_text rt expNo2 = Some number ->
  count_exp (Some number) (experiments (db st0)) <= 1 ->
  forallb (fun c => negb (String.eqb (snd c) EmptyString)) between = true ->
  let st2 := session rt st0 ((env1, data1) :: between) in
  let st3 := session rt st0 ((env1, data1) :: between ++ [(env2, data2)]) in
  count_exp (Some number) (experiments (db st2)) = 1 /\
  count_exp (Some number) (experiments (db st3)) = 1 /\
  db st3 = db st2 /\
  disk st3 = disk st2 /\
  stdout st3 = stdout st2 ++ [RawMessage line2; Error IntegrityError].
Proof.
  intros Hmsg1 Hev1 Hf1 Hbind1 Hup1 Htext1 Hmsg2 Hev2 Hf2 Hbind2 Hup2 Htext2 Hle Hbetween.
  intros st2 st3.
  destruct (setup_count_one env1 st0 data1 Hmsg1 Hev1 Hf1 Hbind1 Hup1 Htext1 Hle)
    as (st1 & Hstep1 & Hone1).
  assert (Hst2 : st2 = session rt st1 between).
  { unfold st2. cbn [session]. rewrite Hstep1. reflexivity. }
  assert (Hone2 : count_exp (Some number) (experiments (db st2)) = 1).
  { rewrite Hst2. rewrite (session_count_kept rt number between st1); [exact Hone1 | lia]. }
  assert (Hex : existsb (has_exp_number (as_text rt expNo2)) (experiments (db st2)) = true).
  { rewrite Htext2. apply existsb_count_exp. lia. }
  assert (Hst3 : st3 =
                 after_try (setup_result rt env2 parsed2 (printed (RawMessage line2) st2))).
  { unfold st3. change ((env1, data1) :: between ++ [(env2, data2)])
      with (((env1, data1) :: between) ++ [(env2, data2)]).
    rewrite session_snoc.
    - fold st2. rewrite (step_setup rt env2 st2 data2 Hmsg2 Hev2). reflexivity.
    - cbn [forallb snd]. rewrite (classify_message_nonempty rt data1 Hmsg1). exact Hbetween. }
  rewrite (setup_result_collision rt env2 parsed2 (printed (RawMessage line2) st2)
             Hf2 Hbind2 Hup2 Hex) in Hst3.
  rewrite Hst3. cbn. rewrite <- app_assoc.
  repeat split; assumption.
Qed.

End Uniqueness.

(** ** Samples that follow a Setup *)

Section Attribution.

Context (rt : Runtime).

Lemma step_logged exp_number env st data row :
  current_exp_number st = exp_number ->
  truthy exp_number = true ->
  logged_row rt exp_number (env, data) = Some row ->
  exists st',
    step rt env st data = Next st' /\
    current_exp_number st' = exp_number /\
    sensor_log (db st') = sensor_log (db st) ++ [row] /\
    experiments (db st') = experiments (db st) /\
    SensorLog.exp_number row = as_text rt exp_number.
Proof.
  intros Hcur Hact. unfold logged_row. cbn [fst snd].
  destruct (classify rt data) as [| | | |line parsed] eqn:Hmsg; try discriminate.
  destruct (event_of parsed) eqn:Hev; try discriminate.
  destruct (first_bind_error _) eqn:Hbind; try discriminate.
  destruct (store_up env) eqn:Hup; try discriminate.
  intros Hrow. inversion Hrow; subst row; clear Hrow.
  eexists. split; [apply step_message; exact Hmsg|].
  unfold dispatch. rewrite Hev.
  rewrite handle_sensor_data_active; cbn [printed current_exp_number];
    rewrite ?Hcur; try assumption.
  cbn. auto.
Qed.



End Attribution.

(** ** A Setup received while an experiment is active *)

Section Reentry.

Context (rt : Runtime).


End Reentry.

(** ** What a Setup leaves in the store *)

Section SetupRows.

Context (rt : Runtime).

Lemma stored_reagents_prefix exp_number rs :
  stored_reagents exp_number rs =
  firstn (List.length (stored_reagents exp_number rs)) rs.
Proof.
  induction rs as [|r rs IH]; cbn; [reflexivity|].
  destruct (reagent_error exp_number r); cbn; [reflexivity|].
  rewrite <- IH. reflexivity.
Qed.

Lemma stored_reagents_length exp_number rs :
  List.length (stored_reagents exp_number rs) <= List.length rs /\
  match reagents_error exp_number rs with
  | None => stored_reagents exp_number rs = rs
  | Some _ => List.length (stored_reagents exp_number rs) < List.length rs
  end.
Proof.
  induction rs as [|r rs [IHle IH]]; cbn; [split; [lia | reflexivity]|].
  destruct (reagent_error exp_number r); cbn; [split; lia|].
  split; [lia|].
  destruct (reagents_error exp_number rs); [lia | congruence].
Qed.

Lemma reagents_error_all_good exp_number rs :
  Forall (fun r => reagent_error exp_number r = None) rs ->
  reagents_error exp_number rs = None.
Proof.
  induction 1 as [|r rs Hr _ IH]; cbn; [reflexivity|].
  rewrite Hr. exact IH.
Qed.

Lemma reagents_error_one_bad exp_number rs r e :
  In r rs ->
  reagent_error exp_number r = Some e ->
  exists e', reagents_error exp_number rs = Some e'.
Proof.
  induction rs as [|r0 rs IH]; cbn; [contradiction|].
  intros [->|Hin] Hbad.
  - rewrite Hbad. eexists; reflexivity.
  - destruct (reagent_error exp_number r0); [eexists; reflexivity|].
    apply IH; assumption.
Qed.

Lemma stored_reagents_all_good exp_number rs :
  Forall (fun r => reagent_error exp_number r = None) rs ->
  stored_reagents exp_number rs = rs.
Proof.
  induction 1 as [|r rs Hr _ IH]; cbn; [reflexivity|].
  rewrite Hr, IH. reflexivity.
Qed.

(** The reagent loop stops at the first reagent that raises. *)
Lemma reagents_first_bad exp_number good bad rest e :
  Forall (fun r => reagent_error exp_number r = None) good ->
  reagent_error exp_number bad = Some e ->
  stored_reagents exp_number (good ++ bad :: rest) = good /\
  reagents_error exp_number (good ++ bad :: rest) = Some e.
Proof.
  intros Hgood Hbad.
  induction Hgood as [|r good Hr _ [IHs IHe]]; cbn.
  - rewrite Hbad. split; reflexivity.
  - rewrite Hr, IHs, IHe. split; reflexivity.
Qed.

(** C5 (as amended): a Setup is two transactions, not one.  When the
    experiment row is inserted it is committed at once, before the
    reagents are looked at, and is durable whatever happens next.  The
    reagent rows are inserted in order and committed together after the
    last one.  When every reagent can be inserted, the experiment row and
    all the reagent rows are stored and durable.  When a reagent fails,
    with [good] the reagents before it and [rest] those after it, the
    connection holds the experiment row and exactly the rows of [good],
    and none of [rest]; the experiment row is durable, no reagent row of
    this Setup is, nothing is rolled back, and the loop prints the
    exception of the failing reagent. *)
Theorem setup_commits_experiment_then_reagents
  env st data line parsed exp expNo operator description rs :
  classify rt data = Message line parsed ->
  event_of parsed = Setup ->
  setup_fields parsed = Some (exp, expNo, operator, description) ->
  first_bind_error [expNo; operator; description] = None ->
  store_up env = true ->
  existsb (has_exp_number (as_text rt expNo)) (experiments (db st)) = false ->
  py_iter (reagents_listed exp) = inr rs ->
  let committed :=
    Tables (experiments (db st) ++ [experiment_row rt env expNo operator description])
      (reagents (db st)) (sensor_log (db st)) in
  exists st1,
    step rt env st data = Next st1 /\
    experiments (db st1) = experiments committed /\
    experiments (disk st1) = experiments committed /\
    sensor_log (db st1) = sensor_log (db st) /\
    current_exp_number st1 = expNo /\
    (Forall (fun r => reagent_error expNo r = None) rs ->
     reagents (db st1) = reagents (db st) ++ map (reagent_row rt expNo) rs /\
     disk st1 = db st1 /\
     stdout st1 =
       stdout st ++ RawMessage line :: Started expNo :: metadata_lines rt (db st1) expNo) /\
    (forall good bad rest e,
       rs = good ++ bad :: rest ->
       Forall (fun r => reagent_error expNo r = None) good ->
       reagent_error expNo bad = Some e ->
       reagents (db st1) = reagents (db st) ++ map (reagent_row rt expNo) good /\
       disk st1 = committed /\
       stdout st1 = stdout st ++ [RawMessage line; Error e]).
Proof.
  intros Hmsg Hev Hf Hbind Hup Hfresh Hiter committed.
  exists (after_try (setup_result rt env parsed (printed (RawMessage line) st))).
  split; [apply step_setup; assumption|].
  rewrite (setup_result_fresh rt env parsed (printed (RawMessage line) st)
             Hf Hbind Hup Hfresh).
  rewrite Hiter. cbv zeta.
  destruct (reagents_error expNo rs) as [e|] eqn:Herr; cbn;
    (split; [reflexivity|]); (split; [reflexivity|]); (split; [reflexivity|]);
    (split; [reflexivity|]); split.
  - intros Hall.
    rewrite (@reagents_error_all_good expNo rs Hall) in Herr. discriminate.
  - intros good bad rest e' Hrs Hgood Hbad.
    destruct (@reagents_first_bad expNo good bad rest e' Hgood Hbad) as [Hs He].
    subst rs. rewrite He in Herr. inversion Herr; subst e'.
    rewrite Hs, <- app_assoc. repeat split.
  - intros Hall.
    rewrite (@stored_reagents_all_good expNo rs Hall), <- app_assoc. repeat split.
  - intros good bad rest e' Hrs Hgood Hbad.
    destruct (@reagents_first_bad expNo good bad rest e' Hgood Hbad) as [_ He].
    subst rs. rewrite He in Herr. discriminate.
Qed.

End SetupRows.

(** ** The fields a Setup must carry *)

Section RequiredFields.

Context (rt : Runtime).

Lemma reagent_error_dict exp_number d :
  reagent_error exp_number (JObj d) =
  match dict_get d "name" with
  | None => Some (KeyError "name")
  | Some name => first_bind_error [exp_number; name; field (JObj d) "concentration"]
  end.
Proof.
  unfold reagent_error, field. cbn.
  destruct (dict_get d "name"); reflexivity.
Qed.

Lemma setup_fields_dict parsed exp expNo operator description :
  py_subscript parsed "experiment" = inr (JObj exp) ->
  dict_get exp "expNo" = Some expNo ->
  dict_get exp "operator" = Some operator ->
  dict_get exp "description" = Some description ->
  setup_fields parsed = Some (JObj exp, expNo, operator, description).
Proof.
  intros He Hn Ho Hd. unfold setup_fields. rewrite He. cbn. rewrite Hn, Ho, Hd.
  reflexivity.
Qed.

(** C7 (as amended): in a Setup, the fields whose absence is a hard
    error are the experiment object, its number [expNo], its [operator],
    its [description], and the [name] of a listed reagent.  Without the
    experiment object or [expNo] the message is dropped and nothing
    changes; without [operator] or [description] it is dropped with no
    row stored (the tracker already holds the new number).  The fields
    that may be absent are [reagents], which then gives no reagent row,
    and a reagent's [concentration], which is stored as NULL. *)
Theorem setup_required_fields env st data line parsed :
  classify rt data = Message line parsed ->
  event_of parsed = Setup ->
  (py_subscript parsed "experiment" = inl (KeyError "experiment") ->
   step rt env st data =
   Next (printed (Error (KeyError "experiment")) (printed (RawMessage line) st))) /\
  (forall exp,
      py_subscript parsed "experiment" = inr (JObj exp) ->
      (dict_get exp "expNo" = None ->
       step rt env st data =
       Next (printed (Error (KeyError "expNo")) (printed (RawMessage line) st))) /\
      (forall expNo,
          dict_get exp "expNo" = Some expNo ->
          dict_get exp "operator" = None ->
          exists st1,
            step rt env st data = Next st1 /\
            db st1 = db st /\ disk st1 = disk st /\
            current_exp_number st1 = expNo /\
            stdout st1 = stdout st ++ [RawMessage line; Error (KeyError "operator")]) /\
      (forall expNo operator,
          dict_get exp "expNo" = Some expNo ->
          dict_get exp "operator" = Some operator ->
          dict_get exp "description" = None ->
          exists st1,
            step rt env st data = Next st1 /\
            db st1 = db st /\ disk st1 = disk st /\
            current_exp_number st1 = expNo /\
            stdout st1 = stdout st ++ [RawMessage line; Error (KeyError "description")]) /\
      (forall expNo operator description,
          dict_get exp "expNo" = Some expNo ->
          dict_get exp "operator" = Some operator ->
          dict_get exp "description" = Some description ->
          first_bind_error [expNo; operator; description] = None ->
          store_up env = true ->
          existsb (has_exp_number (as_text rt expNo)) (experiments (db st)) = false ->
          (dict_get exp "reagents" = None ->
           exists st1,
             step rt env st data = Next st1 /\
             experiments (db st1) =
               experiments (db st) ++ [experiment_row rt env expNo operator description] /\
             reagents (db st1) = reagents (db st) /\
             disk st1 = db st1) /\
          (forall rs,
              dict_get exp "reagents" = Some (JArr rs) ->
              Forall (fun r => exists d name,
                          r = JObj d /\ dict_get d "name" = Some name /\
                          first_bind_error [expNo; name; field r "concentration"] = None) rs ->
              exists st1,
                step rt env st data = Next st1 /\
                reagents (db st1) = reagents (db st) ++ map (reagent_row rt expNo) rs /\
                disk st1 = db st1 /\
                forall d, In (JObj d) rs -> dict_get d "concentration" = None ->
                          Reagents.concentration (reagent_row rt expNo (JObj d)) = SNull) /\
          (forall rs d,
              dict_get exp "reagents" = Some (JArr rs) ->
              In (JObj d) rs ->
              dict_get d "name" = None ->
              exists st1 e,
                step rt env st data = Next st1 /\
                stdout st1 = stdout st ++ [RawMessage line; Error e] /\
                reagents (disk st1) = reagents (db st)))).
Proof.
  intros Hmsg Hev.
  pose proof (step_setup rt env st data Hmsg Hev) as Hstep.
  split.
  { intros He. rewrite Hstep. unfold setup_result. rewrite He. reflexivity. }
  intros exp He. split; [|split; [|split]].
  - intros Hn. rewrite Hstep. unfold setup_result. rewrite He. cbn. rewrite Hn.
    reflexivity.
  - intros expNo Hn Ho. eexists. split; [exact Hstep|].
    unfold setup_result. rewrite He. cbn. rewrite Hn, Ho. cbn.
    rewrite <- app_assoc. repeat split.
  - intros expNo operator Hn Ho Hd. eexists. split; [exact Hstep|].
    unfold setup_result. rewrite He. cbn. rewrite Hn, Ho, Hd. cbn.
    rewrite <- app_assoc. repeat split.
  - intros expNo operator description Hn Ho Hd Hbind Hup Hfresh.
    pose proof (setup_fields_dict parsed He Hn Ho Hd) as Hf.
    pose proof (setup_result_fresh rt env parsed (printed (RawMessage line) st)
                  Hf Hbind Hup Hfresh) as Hres.
    cbv zeta in Hres. rewrite Hres in Hstep. clear Hres.
    unfold reagents_listed in Hstep. cbn [py_get_default] in Hstep.
    split; [|split].
    + intros Hr. rewrite Hr in Hstep. cbn in Hstep.
      eexists. split; [exact Hstep|]. cbn. rewrite app_nil_r. repeat split.
    + intros rs Hr Hgood. rewrite Hr in Hstep. cbn [py_iter] in Hstep.
      assert (Hall : Forall (fun r => reagent_error expNo r = None) rs).
      { eapply Forall_impl; [|exact Hgood].
        intros r (d & name & -> & Hname & Hb).
        rewrite reagent_error_dict, Hname. exact Hb. }
      pose proof (stored_reagents_length expNo rs) as [_ Hcase].
      rewrite (@reagents_error_all_good expNo rs Hall) in Hstep, Hcase.
      rewrite Hcase in Hstep.
      eexists. split; [exact Hstep|]. cbn. repeat split.
      intros d _ Hc. unfold field. cbn. rewrite Hc. reflexivity.
    + intros rs d Hr Hin Hname. rewrite Hr in Hstep. cbn [py_iter] in Hstep.
      assert (Hbad : reagent_error expNo (JObj d) = Some (KeyError "name")).
      { rewrite reagent_error_dict, Hname. reflexivity. }
      destruct (@reagents_error_one_bad expNo rs (JObj d) _ Hin Hbad) as [e Herr].
      rewrite Herr in Hstep.
      eexists. exists e. split; [exact Hstep|]. cbn.
      rewrite <- app_assoc. repeat split.
Qed.

End RequiredFields.

(** * Worked runs on the reference runtime *)

(** The malformed chunk of the specification, on a fresh session. *)
Lemma malformed_chunk_is_dropped_witness :
  classify ascii_runtime not_json = Malformed not_json /\
  exists st',
    step ascii_runtime (up "10:00") fresh_state not_json = Next st' /\
    row_counts (db st') = (0, 0, 0) /\
    current_exp_number st' = JNull.
Proof.
  assert (H : classify ascii_runtime not_json = Malformed not_json) by reflexivity.
  split; [exact H|].
  destruct (malformed_chunk_is_dropped ascii_runtime (up "10:00") fresh_state not_json H)
    as [(st' & Hstep & Hdb & Hdisk & Hcount & Hcur & _) _].
  exists st'. split; [exact Hstep|]. split; [exact Hcount | exact Hcur].
Defined.

(** With the store down, a sample met by an active tracker raises
    OperationalError; the loop goes on all the same. *)
Lemma store_failure_is_swallowed :
  let st := session ascii_runtime fresh_state [(up "10:00", setup_RX1)] in
  let received :=
    [(up "10:00", setup_RX1); (down "10:01", sample_temp); (up "10:02", sample_temp)] in
  snd (try_body ascii_runtime (down "10:01") sample_temp st) = Raised OperationalError /\
  step ascii_runtime (down "10:01") st sample_temp <> Break /\
  terminates ascii_runtime fresh_state received = false /\
  List.length (sensor_log (db (session ascii_runtime fresh_state received))) = 1.
Proof.
  vm_compute. repeat split. discriminate.
Qed.

Lemma loop_ends_only_on_empty_read_witness :
  let st := session ascii_runtime fresh_state [(up "10:00", setup_RX1)] in
  exists st1,
    try_body ascii_runtime (down "10:01") stop_message st = (st1, Raised OperationalError) /\
    step ascii_runtime (down "10:01") st stop_message = Next (printed (Error OperationalError) st1) /\
    db st1 = db st /\
    current_exp_number st1 = JStr "RX-1".
Proof.
  intros st.
  destruct (try_body ascii_runtime (down "10:01") stop_message st) as [st1 c] eqn:Hbody.
  assert (Hc : c = Raised OperationalError).
  { apply (f_equal snd) in Hbody. cbn [snd] in Hbody. rewrite <- Hbody.
    vm_compute. reflexivity. }
  subst c. exists st1.
  destruct (loop_ends_only_on_empty_read ascii_runtime) as (_ & Hraised & Hdown & _).
  assert (Hne : stop_message <> EmptyString) by (vm_compute; discriminate).
  pose proof (Hraised (down "10:01") st stop_message OperationalError st1 Hne Hbody) as Hstep.
  split; [reflexivity|]. split; [exact Hstep|].
  destruct (Hdown (down "10:01") st stop_message _ eq_refl Hstep) as [Hdb _].
  split; [exact Hdb|].
  apply (f_equal fst) in Hbody. cbn [fst] in Hbody. rewrite <- Hbody.
  vm_compute. reflexivity.
Defined.

(** Two Setups for RX-1 with a sample between them. *)
Lemma second_setup_is_rejected_witness :
  let received :=
    [(up "10:00", setup_RX1); (up "10:01", sample_temp); (up "10:02", setup_RX1)] in
  count_exp (Some "RX-1") (experiments (db (session ascii_runtime fresh_state received))) = 1 /\
  last (stdout (session ascii_runtime fresh_state received)) NoActiveExperiment
  = Error IntegrityError.
Proof.
  intros received.
  assert (Hmsg : classify ascii_runtime setup_RX1 =
                 Message setup_RX1
                   (JObj [("type", JStr "setup");
                          ("experiment",
                           JObj [("expNo", JStr "RX-1"); ("operator", JStr "A");
                                 ("description", JStr "first run");
                                 ("reagents",
                                  JArr [JObj [("name", JStr "H2O2");
                                              ("concentration", JFloat 0.5)]])])]))
    by (vm_compute; reflexivity).
  destruct (@second_setup_is_rejected ascii_runtime fresh_state "RX-1"
              [(up "10:01", sample_temp)]
              (up "10:00") setup_RX1 _ _ _ _ _ _
              (up "10:02") setup_RX1 _ _ _ _ _ _
              Hmsg eq_refl eq_refl eq_refl eq_refl eq_refl
              Hmsg eq_refl eq_refl eq_refl eq_refl eq_refl
              (Nat.le_0_l 1) eq_refl)
    as (_ & Hcount & _ & _ & Hout).
  cbn [app] in Hcount, Hout.
  split; [exact Hcount|].
  unfold received. rewrite Hout.
  change [RawMessage setup_RX1; Error IntegrityError]
    with ([RawMessage setup_RX1] ++ [Error IntegrityError]).
  rewrite app_assoc. apply last_last.
Defined.

(** A Setup without operator stops at line 126 and stores nothing, so a
    second Setup with the same number is inserted and nothing is refused;
    when the second one lacks the operator too, the number has no row at
    all; and when only the second one lacks it, what is printed for it is
    the KeyError, not a refusal by the store. *)
Lemma setup_after_abandoned_setup_is_accepted :
  let st := session ascii_runtime fresh_state
              [(up "10:00", setup_without_operator); (up "10:05", setup_RX3)] in
  let neither := session ascii_runtime fresh_state
                   [(up "10:00", setup_without_operator);
                    (up "10:05", setup_without_operator)] in
  let second := session ascii_runtime fresh_state
                  [(up "10:00", setup_RX3); (up "10:05", setup_without_operator)] in
  assigned_number ascii_runtime setup_without_operator = Some (JStr "RX-3") /\
  assigned_number ascii_runtime setup_RX3 = Some (JStr "RX-3") /\
  experiments (db st) =
    [Experiments.Row (Some "RX-3") (Some "C") (Some "third run") (Some "10:05") None] /\
  stdout st =
    [RawMessage setup_without_operator; Error (KeyError "operator");
     RawMessage setup_RX3; Started (JStr "RX-3");
     ExperimentMetadata
       (Experiments.Row (Some "RX-3") (Some "C") (Some "third run") (Some "10:05") None);
     ReagentsOf []] /\
  experiments (db neither) = [] /\
  stdout neither =
    [RawMessage setup_without_operator; Error (KeyError "operator");
     RawMessage setup_without_operator; Error (KeyError "operator")] /\
  experiments (db second) =
    [Experiments.Row (Some "RX-3") (Some "C") (Some "third run") (Some "10:00") None] /\
  skipn 4 (stdout second) =
    [RawMessage setup_without_operator; Error (KeyError "operator")].
Proof.
  vm_compute. repeat split.
Qed.

(** A sample after a Setup that was refused as a duplicate of a stopped
    experiment is logged under that experiment; a sample after a Setup
    without operator is logged under a number that has no row in
    [experiments]. *)
Lemma sample_is_logged_under_stopped_experiment :
  let st := session ascii_runtime fresh_state
              [(up "10:00", setup_RX1); (up "10:30", stop_message);
               (up "11:00", setup_RX1); (up "11:01", sample_temp)] in
  let orphan := session ascii_runtime fresh_state
                  [(up "10:00", setup_without_operator); (up "10:01", sample_temp)] in
  experiments (db st) =
    [Experiments.Row (Some "RX-1") (Some "A") (Some "first run")
       (Some "10:00") (Some "10:30")] /\
  skipn 8 (stdout st) =
    [RawMessage setup_RX1; Error IntegrityError;
     RawMessage sample_temp; LoggedSensorData] /\
  map (fun row => (SensorLog.timestamp row, SensorLog.exp_number row))
    (sensor_log (db st)) = [(Some "11:01", Some "RX-1")] /\
  experiments (db orphan) = [] /\
  map (fun row => (SensorLog.timestamp row, SensorLog.exp_number row))
    (sensor_log (db orphan)) = [(Some "10:01", Some "RX-3")].
Proof.
  vm_compute. repeat split.
Qed.

(** A sample on a fresh session, before any Setup; and a sample after
    the Setups of RX-1 and RX-2, which is logged under RX-2. *)
Lemma idle_sample_is_dropped_witness :
  (exists st',
     step ascii_runtime (up "10:00") fresh_state sample_temp = Next st' /\
     db st' = empty_tables /\
     sensor_log (db (session ascii_runtime fresh_state
                       [(up "10:00", sample_temp); (up "10:01", stop_message);
                        (up "10:02", sample_pump)])) = []) /\
  (let received :=
     [(up "10:00", setup_RX1); (up "10:01", sample_pump); (up "10:02", setup_RX2);
      (up "10:03", not_json)] in
   let st := session ascii_runtime fresh_state received in
   exists st' row,
     step ascii_runtime (up "10:04") st sample_temp = Next st' /\
     sensor_log (db st') = sensor_log (db st) ++ [row] /\
     last_assigned ascii_runtime received = Some (JStr "RX-2") /\
     SensorLog.exp_number row = Some "RX-2").
Proof.
  destruct (idle_sample_is_dropped ascii_runtime) as (Hdrop & _ & Hbefore & Hfrom).
  split.
  - assert (Hmsg : classify ascii_runtime sample_temp =
                   Message sample_temp (JObj [("temp", JFloat 25.3)]))
      by (vm_compute; reflexivity).
    destruct (Hdrop (up "10:00") fresh_state sample_temp _ _ Hmsg eq_refl eq_refl)
      as (st' & Hstep & Hdb & _).
    exists st'. split; [exact Hstep|]. split; [exact Hdb|].
    apply (Hbefore empty_tables). vm_compute. reflexivity.
  - intros received st.
    assert (Hcur : current_exp_number st = JStr "RX-2") by (vm_compute; reflexivity).
    assert (Hrun : terminates ascii_runtime (initial_state empty_tables) received = false)
      by (vm_compute; reflexivity).
    assert (Hlast : last_assigned ascii_runtime received = Some (JStr "RX-2"))
      by (vm_compute; reflexivity).
    destruct (@step_logged ascii_runtime (JStr "RX-2") (up "10:04") st sample_temp _
                Hcur eq_refl eq_refl)
      as (st' & Hstep & _ & Hlog & _).
    destruct (Hfrom empty_tables received (up "10:04") sample_temp st' _ Hrun Hstep Hlog)
      as (number & Hnumber & _ & _ & Hrow).
    rewrite Hlast in Hnumber. inversion Hnumber; subst number; clear Hnumber.
    eexists st', _. split; [exact Hstep|]. split; [exact Hlog|].
    split; [exact Hlast | exact Hrow].
Defined.



(** The Setup of RX-1 on a fresh session: one experiment row and one
    reagent row, both durable.  The Setup of RX-5, whose second reagent
    of three has no name: the experiment row is durable, the row of the
    first reagent is pending, and the third reagent is not inserted. *)
Lemma setup_commits_experiment_then_reagents_witness :
  (exists st1,
     step ascii_runtime (up "10:00") fresh_state setup_RX1 = Next st1 /\
     experiments (disk st1) =
       [Experiments.Row (Some "RX-1") (Some "A") (Some "first run") (Some "10:00") None] /\
     reagents (db st1) = [Reagents.Row (Some "RX-1") (Some "H2O2") (SReal 0.5)] /\
     disk st1 = db st1) /\
  (exists st1,
     step ascii_runtime (up "10:00") fresh_state setup_three_reagents = Next st1 /\
     experiments (disk st1) =
       [Experiments.Row (Some "RX-5") (Some "A") (Some "d") (Some "10:00") None] /\
     reagents (db st1) = [Reagents.Row (Some "RX-5") (Some "HCl") (SReal 1)] /\
     reagents (disk st1) = [] /\
     stdout st1 = [RawMessage setup_three_reagents; Error (KeyError "name")]).
Proof.
  split.
  - assert (Hmsg : classify ascii_runtime setup_RX1 =
                   Message setup_RX1
                     (JObj [("type", JStr "setup");
                            ("experiment",
                             JObj [("expNo", JStr "RX-1"); ("operator", JStr "A");
                                   ("description", JStr "first run");
                                   ("reagents",
                                    JArr [JObj [("name", JStr "H2O2");
                                                ("concentration", JFloat 0.5)]])])]))
      by (vm_compute; reflexivity).
    destruct (@setup_commits_experiment_then_reagents ascii_runtime (up "10:00") fresh_state
                setup_RX1 _ _ _ _ _ _ _
                Hmsg eq_refl eq_refl eq_refl eq_refl eq_refl eq_refl)
      as (st1 & Hstep & _ & Hdisk & _ & _ & Hall & _).
    destruct Hall as (Hrea & Hwhole & _); [repeat constructor|].
    exists st1. split; [exact Hstep|].
    split; [rewrite Hdisk; reflexivity|].
    split; [rewrite Hrea; reflexivity|].
    exact Hwhole.
  - assert (Hmsg : classify ascii_runtime setup_three_reagents =
                   Message setup_three_reagents
                     (JObj [("type", JStr "setup");
                            ("experiment",
                             JObj [("expNo", JStr "RX-5"); ("operator", JStr "A");
                                   ("description", JStr "d");
                                   ("reagents",
                                    JArr [JObj [("name", JStr "HCl");
                                                ("concentration", JInt 1)];
                                          JObj [("concentration", JInt 2)];
                                          JObj [("name", JStr "KOH")]])])]))
      by (vm_compute; reflexivity).
    destruct (@setup_commits_experiment_then_reagents ascii_runtime (up "10:00") fresh_state
                setup_three_reagents _ _ _ _ _ _ _
                Hmsg eq_refl eq_refl eq_refl eq_refl eq_refl eq_refl)
      as (st1 & Hstep & _ & Hdisk & _ & _ & _ & Hbad).
    destruct (Hbad [JObj [("name", JStr "HCl"); ("concentration", JInt 1)]]
                (JObj [("concentration", JInt 2)])
                [JObj [("name", JStr "KOH")]]
                (KeyError "name") eq_refl)
      as (Hrea & Hd & Hout); [repeat constructor | reflexivity |].
    exists st1. split; [exact Hstep|].
    split; [rewrite Hdisk; reflexivity|].
    split; [rewrite Hrea; reflexivity|].
    split; [rewrite Hd; reflexivity|].
    exact Hout.
Defined.

(** A Setup whose second reagent has no name: the loop body ends in a
    KeyError, yet the experiment row is durable, and the first reagent
    row is pending; the commit of the next sample makes it durable. *)
Lemma setup_is_not_atomic :
  let st := session ascii_runtime fresh_state [(up "10:00", setup_nameless_reagent)] in
  let later := session ascii_runtime fresh_state
                 [(up "10:00", setup_nameless_reagent); (up "10:01", sample_temp)] in
  last (stdout st) LoggedSensorData = Error (KeyError "name") /\
  experiments (disk st) =
    [Experiments.Row (Some "RX-4") (Some "A") (Some "d") (Some "10:00") None] /\
  reagents (disk st) = [] /\
  reagents (db st) = [Reagents.Row (Some "RX-4") (Some "NaOH") SNull] /\
  reagents (disk later) = [Reagents.Row (Some "RX-4") (Some "NaOH") SNull].
Proof.
  vm_compute. repeat split.
Qed.

(** A Setup without operator stores nothing. *)
Lemma setup_without_operator_is_rejected :
  let st := session ascii_runtime fresh_state [(up "10:00", setup_without_operator)] in
  db st = empty_tables /\
  disk st = empty_tables /\
  last (stdout st) LoggedSensorData = Error (KeyError "operator").
Proof.
  vm_compute. repeat split.
Qed.

(** The Setup of RX-2 has no reagents and is stored; the one of RX-4
    names a reagent without concentration, stored as NULL. *)
Lemma setup_required_fields_witness :
  (exists st1,
      step ascii_runtime (up "10:00") fresh_state setup_RX2 = Next st1 /\
      experiments (db st1) =
        [Experiments.Row (Some "RX-2") (Some "B") (Some "second run") (Some "10:00") None] /\
      reagents (db st1) = [] /\
      disk st1 = db st1) /\
  (exists st1 e,
      step ascii_runtime (up "10:00") fresh_state setup_nameless_reagent = Next st1 /\
      last (stdout st1) LoggedSensorData = Error e /\
      reagents (disk st1) = []).
Proof.
  split.
  - assert (Hmsg : classify ascii_runtime setup_RX2 =
                   Message setup_RX2
                     (JObj [("type", JStr "setup");
                            ("experiment",
                             JObj [("expNo", JStr "RX-2"); ("operator", JStr "B");
                                   ("description", JStr "second run")])]))
      by (vm_compute; reflexivity).
    destruct (@setup_required_fields ascii_runtime (up "10:00") fresh_state setup_RX2 _ _
                Hmsg eq_refl) as [_ Hexp].
    destruct (Hexp _ eq_refl) as (_ & _ & _ & Hall).
    destruct (Hall (JStr "RX-2") (JStr "B") (JStr "second run")
                eq_refl eq_refl eq_refl eq_refl eq_refl eq_refl) as (Hnone & _ & _).
    exact (Hnone eq_refl).
  - assert (Hmsg : classify ascii_runtime setup_nameless_reagent =
                   Message setup_nameless_reagent
                     (JObj [("type", JStr "setup");
                            ("experiment",
                             JObj [("expNo", JStr "RX-4"); ("operator", JStr "A");
                                   ("description", JStr "d");
                                   ("reagents",
                                    JArr [JObj [("name", JStr "NaOH")];
                                          JObj [("concentration", JFloat 1.5)]])])]))
      by (vm_compute; reflexivity).
    destruct (@setup_required_fields ascii_runtime (up "10:00") fresh_state
                setup_nameless_reagent _ _ Hmsg eq_refl) as [_ Hexp].
    destruct (Hexp _ eq_refl) as (_ & _ & _ & Hall).
    destruct (Hall (JStr "RX-4") (JStr "A") (JStr "d")
                eq_refl eq_refl eq_refl eq_refl eq_refl eq_refl) as (_ & _ & Hbad).
    destruct (Hbad _ [("concentration", JFloat 1.5)] eq_refl
                (or_intror (or_introl eq_refl)) eq_refl)
      as (st1 & e & Hstep & Hout & Hdisk).
    exists st1, e. split; [exact Hstep|]. split; [|exact Hdisk].
    rewrite Hout.
    change [RawMessage setup_nameless_reagent; Error e]
      with ([RawMessage setup_nameless_reagent] ++ [Error e]).
    rewrite app_assoc. apply last_last.
Defined.






(** * Further properties of the loop *)

(** ** Rows are never removed *)

Lemma same_but_end_refl r : same_but_end r r.
Proof. repeat split. Qed.

Lemma Forall2_same_but_end_refl rows : Forall2 same_but_end rows rows.
Proof. induction rows; constructor; [apply same_but_end_refl | assumption]. Qed.

Lemma Forall2_same_but_end_trans l1 : forall l2 l3,
  Forall2 same_but_end l1 l2 -> Forall2 same_but_end l2 l3 ->
  Forall2 same_but_end l1 l3.
Proof.
  induction l1 as [|r1 l1 IH]; intros l2 l3 H12 H23.
  - inversion H12; subst. inversion H23; subst. constructor.
  - inversion H12 as [|? r2 ? l2' Hr12 Hl12]; subst.
    inversion H23 as [|? r3 ? l3' Hr23 Hl23]; subst.
    constructor; [|eapply IH; eassumption].
    destruct Hr12 as (? & ? & ? & ?), Hr23 as (? & ? & ? & ?).
    repeat split; congruence.
Qed.

Lemma Forall2_same_but_end_stamp env key rows :
  Forall2 same_but_end rows (map (stamp_end env key) rows).
Proof.
  induction rows as [|r rows IH]; cbn; constructor; [|exact IH].
  destruct (stamp_end_columns env key r) as (? & ? & ? & ? & _).
  repeat split; assumption.
Qed.

Lemma grows_refl s : grows s s.
Proof.
  split; [|split].
  - exists (experiments (db s)), []. rewrite app_nil_r.
    split; [reflexivity | apply Forall2_same_but_end_refl].
  - exists []. rewrite app_nil_r. reflexivity.
  - exists []. rewrite app_nil_r. reflexivity.
Qed.

Lemma grows_trans s1 s2 s3 : grows s1 s2 -> grows s2 s3 -> grows s1 s3.
Proof.
  intros ((k12 & a12 & He12 & Hf12) & (r12 & Hr12) & (l12 & Hl12))
         ((k23 & a23 & He23 & Hf23) & (r23 & Hr23) & (l23 & Hl23)).
  split; [|split].
  - rewrite He12 in Hf23.
    apply Forall2_app_inv_l in Hf23 as (k' & a' & Hk' & Ha' & ->).
    exists k', (a' ++ a23). rewrite He23, app_assoc.
    split; [reflexivity|]. eapply Forall2_same_but_end_trans; eassumption.
  - exists (r12 ++ r23). rewrite Hr23, Hr12, app_assoc. reflexivity.
  - exists (l12 ++ l23). rewrite Hl23, Hl12, app_assoc. reflexivity.
Qed.

Lemma grows_same_db s s' : db s' = db s -> grows s s'.
Proof.
  intros H. unfold grows. rewrite H.
  split; [|split].
  - exists (experiments (db s)), []. rewrite app_nil_r.
    split; [reflexivity | apply Forall2_same_but_end_refl].
  - exists []. rewrite app_nil_r. reflexivity.
  - exists []. rewrite app_nil_r. reflexivity.
Qed.

Section Growth.

Context (rt : Runtime) (env : environment).

Lemma grows_set_current v : preserves grows (set_current v).
Proof. store_op. apply grows_same_db. reflexivity. Qed.

Lemma grows_commit : preserves grows (commit env).
Proof. store_op; apply grows_same_db; reflexivity. Qed.

Lemma grows_insert_experiment a b c : preserves grows (insert_experiment rt env a b c).
Proof.
  store_op; try (apply grows_same_db; reflexivity).
  split; [|split]; cbn.
  - eexists _, _. split; [reflexivity | apply Forall2_same_but_end_refl].
  - exists []. rewrite app_nil_r. reflexivity.
  - exists []. rewrite app_nil_r. reflexivity.
Qed.

Lemma grows_insert_reagent a b c : preserves grows (insert_reagent rt env a b c).
Proof.
  store_op; try (apply grows_same_db; reflexivity).
  split; [|split]; cbn.
  - exists (experiments (db s)), []. rewrite app_nil_r.
    split; [reflexivity | apply Forall2_same_but_end_refl].
  - eexists. reflexivity.
  - exists []. rewrite app_nil_r. reflexivity.
Qed.

Lemma grows_update_end_time v : preserves grows (update_end_time rt env v).
Proof.
  store_op; try (apply grows_same_db; reflexivity).
  split; [|split]; cbn.
  - eexists _, []. rewrite app_nil_r.
    split; [reflexivity | apply Forall2_same_but_end_stamp].
  - exists []. rewrite app_nil_r. reflexivity.
  - exists []. rewrite app_nil_r. reflexivity.
Qed.

Lemma grows_insert_sensor_log a b c d e f g h i j k l m n o p q r :
  preserves grows (insert_sensor_log rt env a b c d e f g h i j k l m n o p q r).
Proof.
  store_op; try (apply grows_same_db; reflexivity).
  split; [|split]; cbn.
  - exists (experiments (db s)), []. rewrite app_nil_r.
    split; [reflexivity | apply Forall2_same_but_end_refl].
  - exists []. rewrite app_nil_r. reflexivity.
  - eexists. reflexivity.
Qed.

Lemma step_grows st data st' : step rt env st data = Next st' -> grows st st'.
Proof.
  apply frame_step.
  - exact grows_trans.
  - intros l s. apply grows_same_db. reflexivity.
  - intros parsed. apply preserves_dispatch.
    + exact grows_refl.
    + exact grows_trans.
    + intros l s. apply grows_same_db. reflexivity.
    + apply grows_set_current.
    + apply grows_commit.
    + intros; apply grows_insert_experiment.
    + intros; apply grows_insert_reagent.
    + intros; apply grows_update_end_time.
    + intros; apply grows_insert_sensor_log.
Qed.

End Growth.

(** X1: the loop never deletes.  Whatever chunks a session receives,
    every row the three tables held at its start is still there at its
    end, at the same position; rows are only added after them, and of an
    existing row of [experiments] nothing but [end_time] can have
    changed. *)
Theorem session_never_deletes (rt : Runtime) st received :
  (exists kept added,
      experiments (db (session rt st received)) = kept ++ added /\
      Forall2
        (fun r r' =>
           Experiments.exp_number r' = Experiments.exp_number r /\
           Experiments.operator r' = Experiments.operator r /\
           Experiments.description r' = Experiments.description r /\
           Experiments.start_time r' = Experiments.start_time r)
        (experiments (db st)) kept) /\
  (exists added,
      reagents (db (session rt st received)) = reagents (db st) ++ added) /\
  (exists added,
      sensor_log (db (session rt st received)) = sensor_log (db st) ++ added).
Proof.
  assert (H : grows st (session rt st received)).
  { apply session_frame.
    - exact grows_refl.
    - exact grows_trans.
    - intros env s data s'. apply step_grows. }
  exact H.
Qed.

(** ** Experiment numbers stay unique *)

Lemma text_eqb_true a b : text_eqb a b = true -> a = b.
Proof.
  destruct a as [x|], b as [y|]; cbn; try discriminate.
  intros H. apply String.eqb_eq in H. congruence.
Qed.

Section Unique.

Context (rt : Runtime) (env : environment).

Lemma unique_kept_refl s : unique_kept s s.
Proof. intros H. exact H. Qed.

Lemma unique_kept_trans s1 s2 s3 :
  unique_kept s1 s2 -> unique_kept s2 s3 -> unique_kept s1 s3.
Proof. unfold unique_kept. auto. Qed.

Lemma unique_kept_same_experiments s s' :
  experiments (db s') = experiments (db s) -> unique_kept s s'.
Proof. unfold unique_kept. intros ->. auto. Qed.

Lemma unique_kept_insert_experiment a b c :
  preserves unique_kept (insert_experiment rt env a b c).
Proof.
  store_op; try (apply unique_kept_same_experiments; reflexivity).
  intros Huniq number. cbn [db experiments].
  rewrite count_exp_app. unfold count_exp at 2. cbn.
  destruct (has_exp_number (Some number) _) eqn:Hnew; cbn.
  - unfold has_exp_number in Hnew. cbn in Hnew. apply text_eqb_true in Hnew.
    rewrite Hnew in *.
    match goal with
    | Hex : existsb _ _ = false |- _ => apply existsb_false_count_exp in Hex; lia
    end.
  - specialize (Huniq number). lia.
Qed.

Lemma unique_kept_update_end_time v :
  preserves unique_kept (update_end_time rt env v).
Proof.
  store_op; try (apply unique_kept_same_experiments; reflexivity).
  intros Huniq number. cbn [db experiments].
  rewrite count_exp_stamp_end. apply Huniq.
Qed.

Lemma step_unique_kept st data st' :
  step rt env st data = Next st' -> unique_kept st st'.
Proof.
  apply frame_step.
  - exact unique_kept_trans.
  - intros l s. apply unique_kept_same_experiments. reflexivity.
  - intros parsed. apply preserves_dispatch.
    + exact unique_kept_refl.
    + exact unique_kept_trans.
    + intros l s. apply unique_kept_same_experiments. reflexivity.
    + intros v. store_op. apply unique_kept_same_experiments. reflexivity.
    + store_op; apply unique_kept_same_experiments; reflexivity.
    + intros; apply unique_kept_insert_experiment.
    + intros. store_op; apply unique_kept_same_experiments; reflexivity.
    + intros; apply unique_kept_update_end_time.
    + intros. store_op; apply unique_kept_same_experiments; reflexivity.
Qed.

End Unique.

(** X2: the UNIQUE constraint on [exp_number] is an invariant of the
    loop.  If no experiment number occurs on two rows of [experiments]
    when a session starts, then none does after any chunks whatever. *)
Theorem session_keeps_numbers_unique (rt : Runtime) st received :
  (forall number, count_exp (Some number) (experiments (db st)) <= 1) ->
  forall number,
    count_exp (Some number) (experiments (db (session rt st received))) <= 1.
Proof.
  assert (H : unique_kept st (session rt st received)).
  { apply session_frame.
    - exact unique_kept_refl.
    - exact unique_kept_trans.
    - intros env s data s'. apply step_unique_kept. }
  exact H.
Qed.

Lemma session_keeps_numbers_unique_witness :
  count_exp (Some "RX-1")
    (experiments
       (db (session ascii_runtime fresh_state
              [(up "10:00", setup_RX1); (up "10:05", setup_RX2);
               (up "10:10", setup_RX1); (up "10:11", stop_message)]))) <= 1.
Proof.
  apply (@session_keeps_numbers_unique ascii_runtime fresh_state
           [(up "10:00", setup_RX1); (up "10:05", setup_RX2);
            (up "10:10", setup_RX1); (up "10:11", stop_message)]
           (fun number => Nat.le_0_l 1) "RX-1").
Defined.

(** ** Chunks that are no message *)

Section NotAMessage.

Context (rt : Runtime).

(** X4: a chunk whose text does not start with a brace is printed and
    otherwise ignored: nothing is raised and the state is as before.  A
    chunk that is not UTF-8 is not even printed: the decoding error is,
    and the state is as before. *)
Theorem noise_is_ignored env st data :
  data <> EmptyString ->
  (forall decoded,
      bytes_decode rt data = Some decoded ->
      startswith (str_strip rt decoded) "{" = false ->
      try_body rt env data st =
        (printed (RawMessage (str_strip rt decoded)) st, Continued) /\
      step rt env st data = Next (printed (RawMessage (str_strip rt decoded)) st)) /\
  (bytes_decode rt data = None ->
   try_body rt env data st = (st, Raised UnicodeDecodeError) /\
   step rt env st data = Next (printed (Error UnicodeDecodeError) st)).
Proof.
  intros Hne. split.
  - intros decoded Hdec Hnoise.
    assert (Hbody : try_body rt env data st =
                    (printed (RawMessage (str_strip rt decoded)) st, Continued)).
    { unfold try_body. rewrite Hdec. unfold bind, ret, print, continue, printed.
      cbn. rewrite Hnoise. reflexivity. }
    split; [exact Hbody|].
    unfold step. rewrite Hbody. destruct data; [congruence | reflexivity].
  - intros Hdec.
    assert (Hbody : try_body rt env data st = (st, Raised UnicodeDecodeError)).
    { unfold try_body. rewrite Hdec. reflexivity. }
    split; [exact Hbody|].
    apply step_raised; assumption.
Qed.

End NotAMessage.

Lemma noise_is_ignored_witness :
  step ascii_runtime (up "10:00") fresh_state noise_chunk =
  Next (printed (RawMessage "ping") fresh_state).
Proof.
  assert (Hne : noise_chunk <> EmptyString) by discriminate.
  destruct (noise_is_ignored ascii_runtime (up "10:00") fresh_state Hne) as [Hnoise _].
  destruct (Hnoise "ping" eq_refl eq_refl) as [_ Hstep].
  exact Hstep.
Defined.

(** ** Who moves the tracker *)

Section Tracker.

Context (rt : Runtime).

Lemma same_current_handle_sensor_data env parsed :
  preserves same_current (handle_sensor_data rt env parsed).
Proof.
  apply preserves_handle_sensor_data.
  - reflexivity.
  - unfold same_current. congruence.
  - reflexivity.
  - store_op; reflexivity.
  - intros. store_op; reflexivity.
Qed.

(** X5: the current experiment number is only assigned by a Setup and
    only cleared by a Stop.  A turn on a chunk that is not a Setup
    message leaves it as it was or sets it to None, and a turn on a chunk
    that is neither a Setup nor a Stop message leaves it as it was,
    whatever the chunk holds and whether it raises or not. *)
Theorem tracker_moves_on_setup_and_stop env st data st' :
  step rt env st data = Next st' ->
  is_setup_chunk rt data = false ->
  (current_exp_number st' = current_exp_number st \/ current_exp_number st' = JNull) /\
  (is_stop_chunk rt data = false -> current_exp_number st' = current_exp_number st).
Proof.
  unfold is_setup_chunk, is_stop_chunk. rewrite step_classify.
  destruct (classify rt data) as [| |l|l|l parsed]; intros H Hns;
    inversion H; subst; clear H; try (split; [left|intros _]; reflexivity).
  rewrite current_after_try. unfold dispatch.
  destruct (event_of parsed) eqn:Hev; try discriminate.
  - rewrite handle_stop_result. unfold stop_result. cbn [printed current_exp_number].
    split; [|discriminate].
    destruct (truthy (current_exp_number st)); [|left; reflexivity].
    destruct (bind_error (current_exp_number st)); [left; reflexivity|].
    destruct (store_up env); [right | left]; reflexivity.
  - destruct (handle_sensor_data rt env parsed (printed (RawMessage l) st))
      as [s' c] eqn:E.
    pose proof (same_current_handle_sensor_data env parsed _ E) as Hsame.
    unfold same_current in Hsame. cbn in Hsame. cbn [fst].
    split; [left|intros _]; exact Hsame.
  - cbn. split; [left|intros _]; reflexivity.
Qed.

End Tracker.

Lemma tracker_moves_on_setup_and_stop_witness :
  let st := session ascii_runtime fresh_state [(up "10:00", setup_RX1)] in
  exists st',
    step ascii_runtime (up "10:01") st sample_nested = Next st' /\
    current_exp_number st' = current_exp_number st.
Proof.
  intros st.
  destruct (step ascii_runtime (up "10:01") st sample_nested) as [|st'] eqn:Hstep.
  - apply step_break in Hstep. discriminate Hstep.
  - exists st'. split; [reflexivity|].
    assert (Hns : is_setup_chunk ascii_runtime sample_nested = false)
      by (vm_compute; reflexivity).
    assert (Hnt : is_stop_chunk ascii_runtime sample_nested = false)
      by (vm_compute; reflexivity).
    destruct (tracker_moves_on_setup_and_stop ascii_runtime (up "10:01") st
                sample_nested Hstep Hns) as [_ Hsame].
    exact (Hsame Hnt).
Defined.

(** ** Samples the store cannot take *)

Section Unbindable.

Context (rt : Runtime).

Lemma first_bind_error_in ps p e :
  In p ps -> bind_error p = Some e -> exists e', first_bind_error ps = Some e'.
Proof.
  induction ps as [|q ps IH]; cbn; [contradiction|].
  intros [->|Hin] Hbad.
  - rewrite Hbad. eexists; reflexivity.
  - destruct (bind_error q); [eexists; reflexivity|]. apply IH; assumption.
Qed.

(** X6: a sensor sample is stored whole or not at all.  When one of its
    channel values cannot be bound (a list, an object, or an integer
    outside 64 bits), the INSERT raises before anything is written: no
    table and no tracker changes, the error is printed, and the loop goes
    on. *)
Theorem unbindable_sample_is_dropped env st data line d key column v e :
  classify rt data = Message line (JObj d) ->
  event_of (JObj d) = SensorSample ->
  truthy (current_exp_number st) = true ->
  In (key, column) channels ->
  dict_get d key = Some v ->
  bind_error v = Some e ->
  exists e' st',
    step rt env st data = Next st' /\
    db st' = db st /\ disk st' = disk st /\
    current_exp_number st' = current_exp_number st /\
    stdout st' = stdout st ++ [RawMessage line; Error e'].
Proof.
  intros Hmsg Hev Hact Hin Hkey Hbad.
  assert (Hp : In v (sensor_params (current_exp_number st) (JObj d))).
  { unfold sensor_params. right. apply in_map_iff.
    exists (key, column). split; [|exact Hin].
    unfold field. cbn. rewrite Hkey. reflexivity. }
  destruct (first_bind_error_in _ _ Hp Hbad) as [e' He'].
  exists e'. eexists. split; [apply step_message; exact Hmsg|].
  unfold dispatch. rewrite Hev.
  rewrite handle_sensor_data_cases by assumption.
  cbn [printed current_exp_number]. rewrite He'. cbn.
  rewrite <- app_assoc. repeat split.
Qed.

End Unbindable.

Lemma unbindable_sample_is_dropped_witness :
  let st := session ascii_runtime fresh_state [(up "10:00", setup_RX1)] in
  exists st',
    step ascii_runtime (up "10:01") st sample_huge = Next st' /\
    db st' = db st /\
    current_exp_number st' = current_exp_number st.
Proof.
  intros st.
  assert (Hmsg : classify ascii_runtime sample_huge =
                 Message sample_huge (JObj [("uvIntensity", JInt 9223372036854775808)]))
    by (vm_compute; reflexivity).
  assert (Hact : truthy (current_exp_number st) = true) by (vm_compute; reflexivity).
  assert (Hin : In ("uvIntensity", SensorLog.uv_intensity) channels)
    by (cbn; auto 20).
  destruct (@unbindable_sample_is_dropped ascii_runtime (up "10:01") st sample_huge
              _ _ _ _ _ OverflowError Hmsg eq_refl Hact Hin eq_refl eq_refl)
    as (e' & st' & Hstep & Hdb & _ & Hcur & _).
  exists st'. split; [exact Hstep|]. split; [exact Hdb | exact Hcur].
Defined.

(** ** The report on an experiment *)

Section Report.

Context (rt : Runtime).

Lemma same_store_and_current_print l s :
  db (printed l s) = db s /\ disk (printed l s) = disk s /\
  current_exp_number (printed l s) = current_exp_number s.
Proof. repeat split. Qed.

(** X7: [print_experiment_metadata] only reads.  However it ends, the
    tables, what is durable and the tracker are as before.  With the
    store up and a number that can be bound it raises nothing: it prints
    the first row of [experiments] with that number, followed by all the
    rows of [reagents] with that number, or, when no row has the number,
    the line that says so. *)
Theorem print_experiment_metadata_only_reads env v s :
  (forall s' c,
      print_experiment_metadata rt env v s = (s', c) ->
      db s' = db s /\ disk s' = disk s /\
      current_exp_number s' = current_exp_number s) /\
  (bind_error v = None ->
   store_up env = true ->
   (forall r,
       find (has_exp_number (as_text rt v)) (experiments (db s)) = Some r ->
       print_experiment_metadata rt env v s =
       (printed (ReagentsOf (filter (reagent_of (as_text rt v)) (reagents (db s))))
          (printed (ExperimentMetadata r) s),
        Normal tt)) /\
   (find (has_exp_number (as_text rt v)) (experiments (db s)) = None ->
    print_experiment_metadata rt env v s =
    (printed (NoExperimentMetadata v) s, Normal tt))).
Proof.
  split.
  - intros s' c H.
    assert (Hk : same_store s s' /\ same_current s s').
    { split.
      - apply (@preserves_print_experiment_metadata rt env same_store
                 same_store_refl same_store_trans
                 (fun l s0 => conj eq_refl eq_refl) v s s' c H).
      - apply (@preserves_print_experiment_metadata rt env same_current
                 (fun s0 => eq_refl)
                 (fun s1 s2 s3 (H12 : same_current s1 s2) (H23 : same_current s2 s3) =>
                    eq_trans H23 H12)
                 (fun l s0 => eq_refl) v s s' c H). }
    destruct Hk as [[Hdb Hdisk] Hcur]. auto.
  - intros Hbind Hup.
    rewrite (print_experiment_metadata_up rt env v s Hbind Hup).
    unfold metadata_lines. split.
    + intros r Hfound. rewrite Hfound. unfold printed. cbn.
      rewrite <- app_assoc. reflexivity.
    + intros Hnone. rewrite Hnone. reflexivity.
Qed.

End Report.

Lemma print_experiment_metadata_only_reads_witness :
  let st := session ascii_runtime fresh_state [(up "10:00", setup_RX1)] in
  print_experiment_metadata ascii_runtime (up "10:01") (JStr "RX-9") st =
  (printed (NoExperimentMetadata (JStr "RX-9")) st, Normal tt).
Proof.
  intros st.
  destruct (print_experiment_metadata_only_reads ascii_runtime (up "10:01")
              (JStr "RX-9") st) as [_ Hup].
  destruct (Hup eq_refl eq_refl) as [_ Hnone].
  apply Hnone. vm_compute. reflexivity.
Defined.

(** ** What a Setup reports, and what a Stop closes *)

Section RoundTrips.

Context (rt : Runtime).

Lemma find_app_fresh (f : Experiments.row -> bool) rows r :
  existsb f rows = false ->
  find f (rows ++ [r]) = if f r then Some r else None.
Proof.
  induction rows as [|r0 rows IH]; cbn; [reflexivity|].
  intros H. apply orb_false_iff in H as [Hr0 Hrows].
  rewrite Hr0. apply IH. exact Hrows.
Qed.

Lemma filter_reagent_rows number exp_number rs :
  as_text rt exp_number = Some number ->
  filter (reagent_of (Some number)) (map (reagent_row rt exp_number) rs) =
  map (reagent_row rt exp_number) rs.
Proof.
  intros Htext. induction rs as [|r rs IH]; cbn; [reflexivity|].
  unfold reagent_of at 1. cbn. rewrite Htext, text_eqb_refl, IH. reflexivity.
Qed.

(** X8: a Setup reads back what it wrote.  When a Setup with a new
    experiment number goes through with all its reagents, the report it
    prints shows the row just inserted (number, operator and description
    as sent, the start time, no end time) and the reagents of that
    number: those already in the table followed by the ones just
    inserted, in the order sent. *)
Theorem setup_reports_what_it_stored
  env st data line parsed exp expNo operator description rs number :
  classify rt data = Message line parsed ->
  event_of parsed = Setup ->
  setup_fields parsed = Some (exp, expNo, operator, description) ->
  first_bind_error [expNo; operator; description] = None ->
  store_up env = true ->
  as_text rt expNo = Some number ->
  existsb (has_exp_number (Some number)) (experiments (db st)) = false ->
  py_iter (reagents_listed exp) = inr rs ->
  Forall (fun r => reagent_error expNo r = None) rs ->
  exists st1,
    step rt env st data = Next st1 /\
    stdout st1 =
      stdout st ++
        [RawMessage line; Started expNo;
         ExperimentMetadata
           (Experiments.Row (Some number) (as_text rt operator) (as_text rt description)
              (Some (now env)) None);
         ReagentsOf
           (filter (reagent_of (Some number)) (reagents (db st)) ++
              map (reagent_row rt expNo) rs)] /\
    current_exp_number st1 = expNo /\
    disk st1 = db st1.
Proof.
  intros Hmsg Hev Hf Hbind Hup Htext Hfresh Hiter Hgood.
  eexists. split; [apply step_setup; eassumption|].
  rewrite <- Htext in Hfresh.
  rewrite (setup_result_fresh rt env parsed (printed (RawMessage line) st)
             Hf Hbind Hup Hfresh).
  rewrite Hiter. cbv zeta.
  pose proof (stored_reagents_length expNo rs) as [_ Hcase].
  rewrite (@reagents_error_all_good expNo rs Hgood) in *.
  rewrite Hcase. cbn [after_try printed db disk current_exp_number stdout
                        experiments reagents sensor_log].
  split; [|split; reflexivity].
  unfold metadata_lines. cbn [experiments reagents].
  rewrite find_app_fresh by exact Hfresh.
  unfold has_exp_number at 1, experiment_row at 1. cbn [Experiments.exp_number].
  rewrite Htext, text_eqb_refl.
  rewrite filter_app, (filter_reagent_rows expNo rs Htext).
  unfold experiment_row. rewrite Htext, <- app_assoc. reflexivity.
Qed.

(** X9: a Setup followed by a Stop closes the experiment it opened.
    After a Setup with a new experiment number that counts as true, and
    whatever became of its reagents, a Stop stamps the [end_time] of the
    new row, leaves the rows that were there untouched, and clears the
    tracker. *)
Theorem setup_then_stop_closes_experiment
  env1 st data1 line1 parsed1 exp expNo operator description number
  env2 data2 line2 parsed2 :
  classify rt data1 = Message line1 parsed1 ->
  event_of parsed1 = Setup ->
  setup_fields parsed1 = Some (exp, expNo, operator, description) ->
  first_bind_error [expNo; operator; description] = None ->
  store_up env1 = true ->
  as_text rt expNo = Some number ->
  existsb (has_exp_number (Some number)) (experiments (db st)) = false ->
  truthy expNo = true ->
  classify rt data2 = Message line2 parsed2 ->
  event_of parsed2 = Stop ->
  store_up env2 = true ->
  let st2 := session rt st [(env1, data1); (env2, data2)] in
  experiments (db st2) =
    experiments (db st) ++
      [Experiments.Row (Some number) (as_text rt operator) (as_text rt description)
         (Some (now env1)) (Some (now env2))] /\
  experiments (disk st2) = experiments (db st2) /\
  current_exp_number st2 = JNull.
Proof.
  intros Hmsg1 Hev1 Hf Hbind Hup1 Htext Hfresh Hact Hmsg2 Hev2 Hup2 st2.
  destruct (setup_fields_inv parsed1 Hf) as (He & Hn & _ & _).
  pose proof (step_setup rt env1 st data1 Hmsg1 Hev1) as Hstep1.
  set (st1 := after_try (setup_result rt env1 parsed1 (printed (RawMessage line1) st)))
    in Hstep1.
  assert (Hcur1 : current_exp_number st1 = expNo).
  { unfold st1. rewrite current_after_try.
    apply (setup_result_current rt env1 parsed1 _ He Hn). }
  assert (Hexp1 : experiments (db st1) =
                  experiments (db st) ++ [experiment_row rt env1 expNo operator description]).
  { unfold st1. rewrite db_after_try.
    rewrite (setup_result_experiments rt env1 parsed1 _ Hf Hbind Hup1).
    cbn [printed db]. rewrite Htext, Hfresh. reflexivity. }
  assert (Hst2 : st2 = after_try (stop_result rt env2 (printed (RawMessage line2) st1))).
  { unfold st2. cbn [session]. rewrite Hstep1.
    rewrite (step_stop rt env2 st1 data2 Hmsg2 Hev2). reflexivity. }
  rewrite Hst2. unfold stop_result. cbn [printed current_exp_number].
  rewrite Hcur1, Hact, (first_bind_error_head _ _ Hbind), Hup2.
  unfold stopped_state.
  cbn [after_try printed db disk current_exp_number stdout experiments].
  rewrite Hcur1, Hexp1, Htext, map_app, map_stamp_end_no_match by exact Hfresh.
  cbn [map]. unfold stamp_end, has_exp_number, experiment_row.
  cbn [Experiments.exp_number Experiments.operator Experiments.description
         Experiments.start_time].
  rewrite Htext, text_eqb_refl. repeat split.
Qed.

End RoundTrips.

Lemma setup_reports_what_it_stored_witness :
  exists st1,
    step ascii_runtime (up "10:00") fresh_state setup_RX1 = Next st1 /\
    last (stdout st1) NoActiveExperiment =
    ReagentsOf [Reagents.Row (Some "RX-1") (Some "H2O2") (SReal 0.5)].
Proof.
  assert (Hmsg : classify ascii_runtime setup_RX1 =
                 Message setup_RX1
                   (JObj [("type", JStr "setup");
                          ("experiment",
                           JObj [("expNo", JStr "RX-1"); ("operator", JStr "A");
                                 ("description", JStr "first run");
                                 ("reagents",
                                  JArr [JObj [("name", JStr "H2O2");
                                              ("concentration", JFloat 0.5)]])])]))
    by (vm_compute; reflexivity).
  assert (Hgood : Forall (fun r => reagent_error (JStr "RX-1") r = None)
                    [JObj [("name", JStr "H2O2"); ("concentration", JFloat 0.5)]])
    by (repeat constructor).
  destruct (@setup_reports_what_it_stored ascii_runtime (up "10:00") fresh_state
              setup_RX1 _ _ _ _ _ _ _ "RX-1"
              Hmsg eq_refl eq_refl eq_refl eq_refl eq_refl eq_refl eq_refl Hgood)
    as (st1 & Hstep & Hout & _).
  exists st1. split; [exact Hstep|].
  rewrite Hout. reflexivity.
Defined.

Lemma setup_then_stop_closes_experiment_witness :
  experiments
    (db (session ascii_runtime fresh_state
           [(up "10:00", setup_nameless_reagent); (up "10:30", stop_message)])) =
  [Experiments.Row (Some "RX-4") (Some "A") (Some "d") (Some "10:00") (Some "10:30")].
Proof.
  assert (Hmsg1 : classify ascii_runtime setup_nameless_reagent =
                  Message setup_nameless_reagent
                    (JObj [("type", JStr "setup");
                           ("experiment",
                            JObj [("expNo", JStr "RX-4"); ("operator", JStr "A");
                                  ("description", JStr "d");
                                  ("reagents",
                                   JArr [JObj [("name", JStr "NaOH")];
                                         JObj [("concentration", JFloat 1.5)]])])]))
    by (vm_compute; reflexivity).
  assert (Hmsg2 : classify ascii_runtime stop_message =
                  Message stop_message (JObj [("type", JStr "stop")]))
    by (vm_compute; reflexivity).
  destruct (@setup_then_stop_closes_experiment ascii_runtime (up "10:00") fresh_state
              setup_nameless_reagent _ _ _ _ _ _ "RX-4" (up "10:30") stop_message _ _
              Hmsg1 eq_refl eq_refl eq_refl eq_refl eq_refl eq_refl eq_refl
              Hmsg2 eq_refl eq_refl)
    as (Hrows & _).
  exact Hrows.
Defined.

(** ** A refused Setup still steers what follows *)

Section Steering.

Context (rt : Runtime).


(** X11: nothing ties a sample to a row of [experiments].  A Setup that
    is abandoned for want of an operator has already moved the tracker,
    so the sample that follows is stored under an experiment number no
    row of [experiments] carries. *)
Theorem sample_without_experiment_row
  env1 st data1 line1 parsed1 exp expNo number
  env2 data2 line2 parsed2 :
  classify rt data1 = Message line1 parsed1 ->
  event_of parsed1 = Setup ->
  py_subscript parsed1 "experiment" = inr (JObj exp) ->
  dict_get exp "expNo" = Some expNo ->
  dict_get exp "operator" = None ->
  as_text rt expNo = Some number ->
  truthy expNo = true ->
  count_exp (Some number) (experiments (db st)) = 0 ->
  classify rt data2 = Message line2 parsed2 ->
  event_of parsed2 = SensorSample ->
  first_bind_error (sensor_params expNo parsed2) = None ->
  store_up env2 = true ->
  let st2 := session rt st [(env1, data1); (env2, data2)] in
  exists row,
    sensor_log (db st2) = sensor_log (db st) ++ [row] /\
    SensorLog.exp_number row = Some number /\
    experiments (db st2) = experiments (db st) /\
    count_exp (Some number) (experiments (db st2)) = 0.
Proof.
  intros Hmsg1 Hev1 He Hn Ho Htext Hact Hzero Hmsg2 Hev2 Hbind2 Hup2 st2.
  pose proof (step_setup rt env1 st data1 Hmsg1 Hev1) as Hstep1.
  unfold setup_result in Hstep1. rewrite He in Hstep1. cbn in Hstep1.
  rewrite Hn, Ho in Hstep1. cbn in Hstep1.
  assert (Hrow : logged_row rt expNo (env2, data2) =
                 Some (sensor_row rt env2 expNo parsed2)).
  { unfold logged_row. cbn [fst snd]. rewrite Hmsg2, Hev2, Hbind2, Hup2. reflexivity. }
  unfold st2. cbn [session]. rewrite Hstep1.
  match goal with
  | |- context [step rt env2 ?s data2] =>
      destruct (@step_logged rt expNo env2 s data2 _ eq_refl Hact Hrow)
        as (st' & Hstep2 & _ & Hlog & Hexp & Hnum)
  end.
  rewrite Hstep2. exists (sensor_row rt env2 expNo parsed2).
  cbn in Hlog, Hexp.
  split; [exact Hlog|]. split; [rewrite Hnum; exact Htext|].
  split; [exact Hexp|]. rewrite Hexp. exact Hzero.
Qed.

End Steering.


Lemma sample_without_experiment_row_witness :
  let st2 := session ascii_runtime fresh_state
               [(up "10:00", setup_without_operator); (up "10:01", sample_temp)] in
  exists row,
    sensor_log (db st2) = [row] /\
    SensorLog.exp_number row = Some "RX-3" /\
    experiments (db st2) = [].
Proof.
  intros st2.
  assert (Hmsg1 : classify ascii_runtime setup_without_operator =
                  Message setup_without_operator
                    (JObj [("type", JStr "setup");
                           ("experiment",
                            JObj [("expNo", JStr "RX-3");
                                  ("description", JStr "no operator")])]))
    by (vm_compute; reflexivity).
  assert (Hmsg2 : classify ascii_runtime sample_temp =
                  Message sample_temp (JObj [("temp", JFloat 25.3)]))
    by (vm_compute; reflexivity).
  destruct (@sample_without_experiment_row ascii_runtime (up "10:00") fresh_state
              setup_without_operator _ _ _ (JStr "RX-3") "RX-3"
              (up "10:01") sample_temp _ _
              Hmsg1 eq_refl eq_refl eq_refl eq_refl eq_refl eq_refl eq_refl
              Hmsg2 eq_refl eq_refl eq_refl)
    as (row & Hlog & Hnum & Hexp & _).
  exists row. split; [exact Hlog|]. split; [exact Hnum | exact Hexp].
Defined.

(** ** Odd Setups *)

Lemma disk_after_try_fst (r : state * completion unit) :
  disk (after_try r) = disk (fst r).
Proof. destruct r as [s [a|e|]]; reflexivity. Qed.

Section OddSetups.

Context (rt : Runtime).

Lemma reagent_error_text exp_number s :
  reagent_error exp_number (JStr s) = Some TypeError.
Proof. reflexivity. Qed.

Lemma reagents_of_texts exp_number (texts : list string) :
  stored_reagents exp_number (map JStr texts) = [] /\
  reagents_error exp_number (map JStr texts) =
    match texts with
    | [] => None
    | _ :: _ => Some TypeError
    end.
Proof. destruct texts; split; reflexivity. Qed.

Lemma chars_as_texts s : exists texts, chars s = map JStr texts /\ (texts = [] <-> s = EmptyString).
Proof.
  induction s as [|c s (texts & IH & _)].
  - exists []. split; [reflexivity | tauto].
  - exists (String c EmptyString :: texts). cbn. rewrite IH.
    split; [reflexivity | split; discriminate].
Qed.

Lemma keys_as_texts (d : dict) :
  exists texts,
    map (fun kv => JStr (fst kv)) d = map JStr texts /\ (texts = [] <-> d = []).
Proof.
  exists (map fst d). rewrite map_map. split; [reflexivity|].
  destruct d; cbn; split; congruence.
Qed.

(** X12: [reagents] that is not a list never yields a reagent row.  The
    experiment row of the Setup is inserted and committed all the same;
    then an empty text or empty object is taken for an empty list and the
    Setup completes, and any other value ends the Setup with a
    TypeError. *)
Theorem reagents_must_be_a_list
  env st data line parsed exp expNo operator description v :
  classify rt data = Message line parsed ->
  event_of parsed = Setup ->
  setup_fields parsed = Some (exp, expNo, operator, description) ->
  first_bind_error [expNo; operator; description] = None ->
  store_up env = true ->
  existsb (has_exp_number (as_text rt expNo)) (experiments (db st)) = false ->
  reagents_listed exp = v ->
  (forall items, v <> JArr items) ->
  exists st1,
    step rt env st data = Next st1 /\
    experiments (db st1) =
      experiments (db st) ++ [experiment_row rt env expNo operator description] /\
    experiments (disk st1) = experiments (db st1) /\
    reagents (db st1) = reagents (db st) /\
    (v = JStr EmptyString \/ v = JObj [] ->
     disk st1 = db st1 /\
     exists report, stdout st1 = stdout st ++ RawMessage line :: Started expNo :: report) /\
    (v <> JStr EmptyString -> v <> JObj [] ->
     stdout st1 = stdout st ++ [RawMessage line; Error TypeError]).
Proof.
  intros Hmsg Hev Hf Hbind Hup Hfresh Hv Hnolist.
  eexists. split; [apply step_setup; eassumption|].
  rewrite (setup_result_fresh rt env parsed (printed (RawMessage line) st)
             Hf Hbind Hup Hfresh).
  cbv zeta. rewrite Hv.
  assert (Htexts :
            (exists texts, py_iter v = inr (map JStr texts) /\
                           (texts = [] <-> (v = JStr EmptyString \/ v = JObj []))) \/
            (py_iter v = inl TypeError /\ v <> JStr EmptyString /\ v <> JObj [])).
  { destruct v as [| | | |s|items|d]; cbn;
      try (right; repeat split; discriminate).
    - left. destruct (chars_as_texts s) as (texts & Hc & Hiff).
      exists texts. split; [rewrite Hc; reflexivity|].
      rewrite Hiff. split; [intros ->; left; reflexivity|].
      intros [H|H]; [congruence | discriminate].
    - exfalso. apply (Hnolist items). reflexivity.
    - left. destruct (keys_as_texts d) as (texts & Hc & Hiff).
      exists texts. split; [rewrite Hc; reflexivity|].
      rewrite Hiff. split; [intros ->; right; reflexivity|].
      intros [H|H]; [discriminate | congruence]. }
  destruct Htexts as [(texts & Hiter & Hiff) | (Hiter & Hne1 & Hne2)]; rewrite Hiter.
  - destruct (reagents_of_texts expNo texts) as [Hstored Herr].
    rewrite Hstored, Herr.
    destruct texts as [|t texts]; cbn.
    + rewrite app_nil_r.
      split; [reflexivity|]. split; [reflexivity|]. split; [reflexivity|].
      split.
      * intros _. split; [reflexivity|].
        eexists. rewrite <- app_assoc. reflexivity.
      * intros H1 H2. exfalso.
        destruct (proj1 Hiff eq_refl); contradiction.
    + rewrite app_nil_r.
      split; [reflexivity|]. split; [reflexivity|]. split; [reflexivity|].
      split.
      * intros Hempty. destruct Hiff as [_ Hback].
        specialize (Hback Hempty). discriminate.
      * intros _ _. rewrite <- app_assoc. reflexivity.
  - cbn.
    split; [reflexivity|]. split; [reflexivity|]. split; [reflexivity|].
    split.
    + intros [Hempty|Hempty]; contradiction.
    + intros _ _. rewrite <- app_assoc. reflexivity.
Qed.

Lemma existsb_null_number rows : existsb (has_exp_number None) rows = false.
Proof.
  induction rows as [|r rows IH]; cbn; [reflexivity|].
  rewrite IH. unfold has_exp_number, text_eqb.
  destruct (Experiments.exp_number r); reflexivity.
Qed.

(** X13: a Setup whose [expNo] is null is stored every time: the UNIQUE
    constraint does not compare NULLs, so the row is added whatever rows
    are there.  The tracker then holds None, so the experiment just
    stored cannot receive samples, and a following sample is dropped. *)
Theorem null_setup_is_stored_and_idle
  env st data line parsed exp operator description :
  classify rt data = Message line parsed ->
  event_of parsed = Setup ->
  setup_fields parsed = Some (exp, JNull, operator, description) ->
  first_bind_error [JNull; operator; description] = None ->
  store_up env = true ->
  exists st1,
    step rt env st data = Next st1 /\
    experiments (db st1) =
      experiments (db st) ++
        [Experiments.Row None (as_text rt operator) (as_text rt description)
           (Some (now env)) None] /\
    experiments (disk st1) = experiments (db st1) /\
    current_exp_number st1 = JNull /\
    forall env2 data2 line2 parsed2,
      classify rt data2 = Message line2 parsed2 ->
      event_of parsed2 = SensorSample ->
      step rt env2 st1 data2 =
      Next (printed NoActiveExperiment (printed (RawMessage line2) st1)).
Proof.
  intros Hmsg Hev Hf Hbind Hup.
  destruct (setup_fields_inv parsed Hf) as (He & Hn & _ & _).
  exists (after_try (setup_result rt env parsed (printed (RawMessage line) st))).
  split; [apply step_setup; assumption|].
  assert (Hcur : current_exp_number
                   (after_try (setup_result rt env parsed (printed (RawMessage line) st)))
                 = JNull).
  { rewrite current_after_try. apply (setup_result_current rt env parsed _ He Hn). }
  assert (Hfresh : existsb (has_exp_number (as_text rt JNull))
                     (experiments (db (printed (RawMessage line) st))) = false)
    by apply existsb_null_number.
  split; [|split; [|split; [exact Hcur|]]].
  - rewrite db_after_try,
      (setup_result_experiments rt env parsed (printed (RawMessage line) st) Hf Hbind Hup).
    rewrite Hfresh. reflexivity.
  - rewrite db_after_try, disk_after_try_fst.
    rewrite (setup_result_fresh rt env parsed (printed (RawMessage line) st)
               Hf Hbind Hup Hfresh).
    cbv zeta. destruct (py_iter _); [reflexivity|].
    destruct (reagents_error _ _); reflexivity.
  - intros env2 data2 line2 parsed2 Hmsg2 Hev2.
    rewrite (step_message rt env2 _ data2 Hmsg2). unfold dispatch. rewrite Hev2.
    rewrite handle_sensor_data_idle; [reflexivity|].
    cbn [printed current_exp_number]. rewrite Hcur. reflexivity.
Qed.

End OddSetups.

Lemma reagents_must_be_a_list_witness :
  exists st1,
    step ascii_runtime (up "10:00") fresh_state setup_reagents_text = Next st1 /\
    map Experiments.exp_number (experiments (disk st1)) = [Some "RX-5"] /\
    reagents (db st1) = [] /\
    last (stdout st1) NoActiveExperiment = Error TypeError.
Proof.
  assert (Hmsg : classify ascii_runtime setup_reagents_text =
                 Message setup_reagents_text
                   (JObj [("type", JStr "setup");
                          ("experiment",
                           JObj [("expNo", JStr "RX-5"); ("operator", JStr "A");
                                 ("description", JStr "d");
                                 ("reagents", JStr "NaOH")])]))
    by (vm_compute; reflexivity).
  assert (Hnolist : forall items, JStr "NaOH" <> JArr items) by discriminate.
  destruct (@reagents_must_be_a_list ascii_runtime (up "10:00") fresh_state
              setup_reagents_text _ _ _ _ _ _ (JStr "NaOH")
              Hmsg eq_refl eq_refl eq_refl eq_refl eq_refl eq_refl Hnolist)
    as (st1 & Hstep & Hexp & Hdisk & Hrea & _ & Hbad).
  exists st1. split; [exact Hstep|].
  split; [rewrite Hdisk, Hexp; reflexivity|].
  split; [exact Hrea|].
  rewrite Hbad by discriminate.
  reflexivity.
Defined.

Lemma null_setup_is_stored_and_idle_witness :
  let st := session ascii_runtime fresh_state [(up "10:00", setup_null)] in
  exists st1,
    step ascii_runtime (up "10:05") st setup_null = Next st1 /\
    map Experiments.exp_number (experiments (db st1)) = [None; None] /\
    current_exp_number st1 = JNull.
Proof.
  intros st.
  assert (Hmsg : classify ascii_runtime setup_null =
                 Message setup_null
                   (JObj [("type", JStr "setup");
                          ("experiment",
                           JObj [("expNo", JNull); ("operator", JStr "A");
                                 ("description", JStr "no number")])]))
    by (vm_compute; reflexivity).
  assert (Hold : experiments (db st) =
                 [Experiments.Row None (Some "A") (Some "no number") (Some "10:00") None])
    by (vm_compute; reflexivity).
  destruct (@null_setup_is_stored_and_idle ascii_runtime (up "10:05") st setup_null
              _ _ _ _ _ Hmsg eq_refl eq_refl eq_refl eq_refl)
    as (st1 & Hstep & Hexp & _ & Hcur & _).
  exists st1. split; [exact Hstep|].
  split; [rewrite Hexp, Hold; reflexivity | exact Hcur].
Defined.

(** ** Which message writes which table *)

Section Writers.

Context (rt : Runtime).

Lemma reagents_kept_handle_stop env : preserves reagents_kept (handle_stop rt env).
Proof.
  apply preserves_handle_stop.
  - reflexivity.
  - unfold reagents_kept. congruence.
  - reflexivity.
  - intros v. store_op. reflexivity.
  - store_op; reflexivity.
  - intros v. store_op; reflexivity.
Qed.

Lemma reagents_kept_handle_sensor_data env parsed :
  preserves reagents_kept (handle_sensor_data rt env parsed).
Proof.
  apply preserves_handle_sensor_data.
  - reflexivity.
  - unfold reagents_kept. congruence.
  - reflexivity.
  - store_op; reflexivity.
  - intros. store_op; reflexivity.
Qed.

Lemma experiments_kept_handle_sensor_data env parsed :
  preserves experiments_kept (handle_sensor_data rt env parsed).
Proof.
  apply preserves_handle_sensor_data.
  - reflexivity.
  - unfold experiments_kept. congruence.
  - reflexivity.
  - store_op; reflexivity.
  - intros. store_op; reflexivity.
Qed.

(** X14: each table has its writers.  [reagents] is written by a Setup
    only and [experiments] by a Setup or a Stop only: a turn on any other
    chunk, whether it is stored, dropped or ends in an error, leaves them
    as they were.  [sensor_log] is never written by a Setup or a Stop. *)
Theorem tables_have_their_writers env st data st' :
  step rt env st data = Next st' ->
  (is_setup_chunk rt data = false -> reagents (db st') = reagents (db st)) /\
  (is_setup_chunk rt data = false -> is_stop_chunk rt data = false ->
   experiments (db st') = experiments (db st)) /\
  (is_setup_chunk rt data = true \/ is_stop_chunk rt data = true ->
   sensor_log (db st') = sensor_log (db st)).
Proof.
  unfold is_setup_chunk, is_stop_chunk. rewrite step_classify.
  destruct (classify rt data) as [| |l|l|l parsed]; intros H;
    inversion H; subst; clear H;
    try (split; [|split]; [reflexivity | reflexivity | intros [?|?]; discriminate]).
  rewrite db_after_try. unfold dispatch.
  set (st1 := printed (RawMessage l) st).
  destruct (event_of parsed) eqn:Hev.
  - split; [discriminate|]. split; [discriminate|]. intros _.
    destruct (handle_setup rt env parsed st1) as [s' c] eqn:E.
    exact (handle_setup_same_sensor_log rt env parsed _ E).
  - split; [|split; [discriminate|]].
    + intros _. destruct (handle_stop rt env st1) as [s' c] eqn:E.
      exact (reagents_kept_handle_stop env _ E).
    + intros _. destruct (handle_stop rt env st1) as [s' c] eqn:E.
      exact (handle_stop_same_sensor_log rt env _ E).
  - destruct (handle_sensor_data rt env parsed st1) as [s' c] eqn:E.
    split; [|split].
    + intros _. exact (reagents_kept_handle_sensor_data env parsed _ E).
    + intros _ _. exact (experiments_kept_handle_sensor_data env parsed _ E).
    + intros [?|?]; discriminate.
  - split; [|split]; [reflexivity | reflexivity | intros [?|?]; discriminate].
Qed.

(** X15: a second Stop does nothing.  After a Stop that found the tracker
    active and went through, another Stop, at whatever time, leaves the
    tables, what is durable and the tracker as the first one left them:
    the [end_time] of the first Stop stands. *)
Theorem second_stop_changes_nothing
  env1 st data1 line1 parsed1 env2 data2 line2 parsed2 :
  classify rt data1 = Message line1 parsed1 ->
  event_of parsed1 = Stop ->
  truthy (current_exp_number st) = true ->
  bind_error (current_exp_number st) = None ->
  store_up env1 = true ->
  classify rt data2 = Message line2 parsed2 ->
  event_of parsed2 = Stop ->
  let once := session rt st [(env1, data1)] in
  let twice := session rt st [(env1, data1); (env2, data2)] in
  db twice = db once /\ disk twice = disk once /\
  current_exp_number twice = JNull /\
  stdout twice = stdout once ++ [RawMessage line2].
Proof.
  intros Hmsg1 Hev1 Hact Hbind Hup1 Hmsg2 Hev2 once twice.
  unfold once, twice. cbn [session].
  rewrite (step_stop rt env1 st data1 Hmsg1 Hev1).
  set (st1 := after_try (stop_result rt env1 (printed (RawMessage line1) st))).
  assert (Hcur : current_exp_number st1 = JNull).
  { unfold st1, stop_result. cbn [printed current_exp_number].
    rewrite Hact, Hbind, Hup1. reflexivity. }
  rewrite (step_stop rt env2 st1 data2 Hmsg2 Hev2).
  assert (H2 : stop_result rt env2 (printed (RawMessage line2) st1) =
               (printed (RawMessage line2) st1, Continued)).
  { unfold stop_result. cbn [printed current_exp_number]. rewrite Hcur. reflexivity. }
  rewrite H2. cbn [after_try printed db disk current_exp_number stdout].
  repeat split; try reflexivity. exact Hcur.
Qed.

End Writers.

Lemma tables_have_their_writers_witness :
  let st := session ascii_runtime fresh_state [(up "10:00", setup_RX1)] in
  exists st',
    step ascii_runtime (up "10:01") st sample_temp = Next st' /\
    reagents (db st') = reagents (db st) /\
    experiments (db st') = experiments (db st).
Proof.
  intros st.
  destruct (step ascii_runtime (up "10:01") st sample_temp) as [|st'] eqn:Hstep.
  - apply step_break in Hstep. discriminate Hstep.
  - exists st'. split; [reflexivity|].
    assert (Hns : is_setup_chunk ascii_runtime sample_temp = false)
      by (vm_compute; reflexivity).
    assert (Hnt : is_stop_chunk ascii_runtime sample_temp = false)
      by (vm_compute; reflexivity).
    destruct (tables_have_their_writers ascii_runtime (up "10:01") st sample_temp Hstep)
      as (Hrea & Hexp & _).
    split; [exact (Hrea Hns) | exact (Hexp Hns Hnt)].
Defined.

Lemma second_stop_changes_nothing_witness :
  let st := session ascii_runtime fresh_state [(up "10:00", setup_RX1)] in
  map Experiments.end_time
    (experiments
       (db (session ascii_runtime st
              [(up "10:30", stop_message); (up "10:45", stop_message)]))) =
  [Some "10:30"].
Proof.
  intros st.
  assert (Hmsg : classify ascii_runtime stop_message =
                 Message stop_message (JObj [("type", JStr "stop")]))
    by (vm_compute; reflexivity).
  assert (Hact : truthy (current_exp_number st) = true) by (vm_compute; reflexivity).
  assert (Hbind : bind_error (current_exp_number st) = None) by (vm_compute; reflexivity).
  destruct (@second_stop_changes_nothing ascii_runtime (up "10:30") st stop_message _ _
              (up "10:45") stop_message _ _ Hmsg eq_refl Hact Hbind eq_refl Hmsg eq_refl)
    as (Hdb & _).
  rewrite Hdb. vm_compute. reflexivity.
Defined.
